(** * PGPBuffer: index partitioning, geometric sampling and sample packing

    A shallow embedding of [pgportfolio/nnagent/replay_buffer.py].

    Conventions of the embedding:
    - Python integers are [Z]; sequence indexing and slicing follow Python
      (negative positions count from the end, slices clamp to the bounds).
    - The portions given to [_divide_data] are floats in the source.  The
      partitioner is embedded twice: in module [Binary64] over IEEE binary64
      floats, with the products rounded as numpy rounds them, where the
      values of the split points are the matter; and over exact rationals
      [Q] for the buffer built on it, whose properties do not depend on
      those values.  [astype(int)] truncates toward zero.
    - Tensor elements are kept abstract (class [ArrayBackend]); the
      randomness source is abstract as well (class [RandomSource]).
    - An exception leaves the object as mutated so far: computations map a
      state to an outcome together with the state reached. *)

From Stdlib Require Import ZArith QArith Qround Lqa List FinFun Lia Bool Floats.
Import ListNotations.
Local Open Scope Z_scope.

(** ** Python sequences *)

Module Py.

(** How a slice bound is normalised against a sequence of length [n]. *)
Definition norm_bound (n i : Z) : Z :=
  if i <? 0 then Z.max 0 (i + n) else Z.min i n.

(** [l[a:b]]. *)
Definition slice {A : Type} (l : list A) (a b : Z) : list A :=
  let n := Z.of_nat (length l) in
  let a' := norm_bound n a in
  let b' := norm_bound n b in
  firstn (Z.to_nat (b' - a')) (skipn (Z.to_nat a') l).

(** [l[:b]]. *)
Definition slice_to {A : Type} (l : list A) (b : Z) : list A := slice l 0 b.

(** The position an integer index denotes in a sequence of length [n];
    [None] stands for an index out of bounds. *)
Definition index (n : nat) (i : Z) : option nat :=
  if (0 <=? i) && (i <? Z.of_nat n) then Some (Z.to_nat i)
  else if (- Z.of_nat n <=? i) && (i <? 0) then Some (Z.to_nat (i + Z.of_nat n))
  else None.

(** [range(a, b)], also [np.arange(b)] for [a = 0]. *)
Definition range (a b : Z) : list Z :=
  map (fun k => a + Z.of_nat k) (seq 0 (Z.to_nat (b - a))).

End Py.

(** ** Exceptions and outcomes *)

Inductive exn : Type :=
| RuntimeError | IndexError | ValueError | TypeError | AttributeError
| ZeroDivisionError.

(** What a call produces: a value, an exception, or no answer within the
    iteration bound given to a loop. *)
Inductive result (A : Type) : Type :=
| Ok (a : A)
| Raise (e : exn)
| OutOfFuel.
Arguments Ok {A} a.
Arguments Raise {A} e.
Arguments OutOfFuel {A}.

(** ** The partitioner: [_divide_data] *)

(** Here the portions are exact rationals: the version the buffer is built
    on.  The version over floats follows it. *)

(** [x.astype(int)] on a rational: truncation toward zero. *)
Definition astype_int (q : Q) : Z := Z.quot (Qnum q) (Z.pos (Qden q)).

(** [(portion * period_num).astype(int)]. *)
Definition split_at (portion : Q) (period_num : Z) : Z :=
  astype_int (portion * inject_Z period_num)%Q.

(** [np.split(ary, [i1, i2])]: the sub-arrays [ary[0:i1]], [ary[i1:i2]] and
    [ary[i2:len(ary)]]. *)
Definition np_split3 {A : Type} (ary : list A) (i1 i2 : Z)
  : list A * list A * list A :=
  (Py.slice ary 0 i1, Py.slice ary i1 i2,
   Py.slice ary i2 (Z.of_nat (length ary))).

(** The three parts before truncation, as (train, test, val). *)
Definition split_parts (period_num : Z) (test_portion val_portion : Q)
           (portion_reversed : bool) : list Z * list Z * list Z :=
  let train_portion := (1 - test_portion - val_portion)%Q in
  let indices := Py.range 0 period_num in
  if portion_reversed then
    let '(val_idx, test_idx, train_idx) :=
      np_split3 indices (split_at val_portion period_num)
                (split_at (val_portion + test_portion)%Q period_num) in
    (train_idx, test_idx, val_idx)
  else
    np_split3 indices (split_at train_portion period_num)
              (split_at (train_portion + test_portion)%Q period_num).

Definition _divide_data (period_num window_size : Z)
           (test_portion val_portion : Q) (portion_reversed : bool)
  : result (list Z * list Z * list Z) :=
  let '(train_idx, test_idx, val_idx) :=
    split_parts period_num test_portion val_portion portion_reversed in
  Ok (Py.slice_to train_idx (- (window_size + 1)),
      Py.slice_to test_idx (- (window_size + 1)),
      Py.slice_to val_idx (- (window_size + 1))).

(** The words of the specification, kept apart from the code's definitions:
    a range with its last [k] indices removed, and a product rounded down. *)
Definition remove_last {A : Type} (k : nat) (l : list A) : list A :=
  rev (skipn k (rev l)).

Definition rounded_down (portion : Q) (period_num : Z) : Z :=
  Qfloor (portion * inject_Z period_num)%Q.

(** ** The partitioner over binary64 floats *)

#[local] Set Warnings "-inexact-float".

Module Binary64.

(** The real number a finite float stands for (zero for the others). *)
Definition value (x : float) : Q :=
  match Prim2SF x with
  | S754_finite s m e =>
      let n := if s then Z.neg m else Z.pos m in
      if 0 <=? e then inject_Z (n * 2 ^ e) else Qmake n (2 ^ Z.to_pos (- e))
  | _ => 0
  end.

(** Neither an infinity nor a NaN. *)
Definition finite (x : float) : bool :=
  match Prim2SF x with
  | S754_zero _ | S754_finite _ _ _ => true
  | _ => false
  end.

(** A Python integer as a float: the nearest one, ties to even. *)
Definition of_int (n : Z) : float :=
  SF2Prim (binary_normalize prec emax n 0 false).

(** The least 64-bit integer. *)
Definition int64_min : Z := - 2 ^ 63.

(** [x.astype(int)] on a float: the conversion to a 64-bit integer truncates
    toward zero; for an infinity, a NaN or a value outside the 64-bit range
    the conversion of x86-64 gives the least integer. *)
Definition astype_int64 (x : float) : Z :=
  if finite x then
    let z := astype_int (value x) in
    if (int64_min <=? z) && (z <? 2 ^ 63) then z else int64_min
  else int64_min.

(** [split_point * period_num] for one split point. *)
Definition scaled (split_point : float) (period_num : Z) : float :=
  (split_point * of_int period_num)%float.

(** [(split_point * period_num).astype(int)] for one split point. *)
Definition split_at (split_point : float) (period_num : Z) : Z :=
  astype_int64 (scaled split_point period_num).

(** The three parts before truncation, as (train, test, val). *)
Definition split_parts (period_num : Z) (test_portion val_portion : float)
           (portion_reversed : bool) : list Z * list Z * list Z :=
  let train_portion := (1 - test_portion - val_portion)%float in
  let indices := Py.range 0 period_num in
  if portion_reversed then
    let '(val_idx, test_idx, train_idx) :=
      np_split3 indices (split_at val_portion period_num)
                (split_at (val_portion + test_portion)%float period_num) in
    (train_idx, test_idx, val_idx)
  else
    np_split3 indices (split_at train_portion period_num)
              (split_at (train_portion + test_portion)%float period_num).

Definition _divide_data (period_num window_size : Z)
           (test_portion val_portion : float) (portion_reversed : bool)
  : result (list Z * list Z * list Z) :=
  let '(train_idx, test_idx, val_idx) :=
    split_parts period_num test_portion val_portion portion_reversed in
  Ok (Py.slice_to train_idx (- (window_size + 1)),
      Py.slice_to test_idx (- (window_size + 1)),
      Py.slice_to val_idx (- (window_size + 1))).

(** The array [split_point] of either order. *)
Definition split_point (test_portion val_portion : float)
           (portion_reversed : bool) : float * float :=
  let train_portion := (1 - test_portion - val_portion)%float in
  if portion_reversed then (val_portion, (val_portion + test_portion)%float)
  else (train_portion, (train_portion + test_portion)%float).



End Binary64.

(** ** Collaborators: the array backend and the randomness source *)

(** Tensor elements with the element-wise division of the backend and the
    value [1.0 / coin_num] the portfolio vector memory starts from. *)
Class ArrayBackend : Type := {
  V : Type;
  vdiv : V -> V -> V;
  vuniform : nat -> V
}.

(** [np.random.geometric]: a draw is a trial count of at least one, and
    the generator moves on. *)
Class RandomSource : Type := {
  Rng : Type;
  geometric_draw : Q -> Rng -> positive * Rng
}.

(** ** List helpers for tensors stored as nested lists *)

Definition zip_with {A B C : Type} (f : A -> B -> C)
           (l1 : list A) (l2 : list B) : list C :=
  map (fun p => f (fst p) (snd p)) (combine l1 l2).

(** Broadcasting of a dimension of size one to size [n]. *)
Definition expand {A : Type} (n : nat) (l : list A) : list A :=
  match l with
  | [x] => repeat x n
  | _ => l
  end.

(** The size two broadcast dimensions agree on, if any. *)
Definition broadcast_dim (a b : nat) : option nat :=
  if (a =? b)%nat then Some a
  else if (a =? 1)%nat then Some b
  else if (b =? 1)%nat then Some a
  else None.

(** [l[p] = v] for a position inside [l]. *)
Definition set_nth {A : Type} (l : list A) (p : nat) (v : A) : list A :=
  if (p <? length l)%nat then firstn p l ++ v :: skipn (S p) l else l.

(** [l[idxs]] by integer array indexing: one element per index, [None] when
    an index is out of bounds. *)
Fixpoint gather {A : Type} (l : list A) (n : nat) (idxs : list Z)
  : option (list A) :=
  match idxs with
  | [] => Some []
  | i :: rest =>
      match Py.index n i with
      | None => None
      | Some p =>
          match nth_error l p, gather l n rest with
          | Some r, Some rs => Some (r :: rs)
          | _, _ => None
          end
      end
  end.

(** [l[idxs] = vals]: the rows are written in order; an index out of bounds
    stops the write with [IndexError] and the rows written so far stay. *)
Fixpoint scatter {A : Type} (l : list A) (n : nat) (idxs : list Z)
         (vals : list A) : result unit * list A :=
  match idxs, vals with
  | i :: rest, v :: vs =>
      match Py.index n i with
      | None => (Raise IndexError, l)
      | Some p => scatter (set_nth l p v) n rest vs
      end
  | _, _ => (Ok tt, l)
  end.

(** The element of a series at integer position [k], as a list of length
    one (empty when [k] is out of bounds). *)
Definition at_time {A : Type} (k : Z) (ser : list A) : list A :=
  match Py.index (length ser) k with
  | Some p => firstn 1 (skipn p ser)
  | None => []
  end.

(** The length of [l[a:b]] for a sequence of length [n]. *)
Definition slice_len (n : nat) (a b : Z) : nat :=
  Z.to_nat (Py.norm_bound (Z.of_nat n) b - Py.norm_bound (Z.of_nat n) a).

(** [ary += other] on a one-dimensional integer array and a list of
    integers: element-wise addition in place, [other] broadcast when it has
    a single element; the length of [ary] never changes.  An empty list is
    an array of floats, which cannot be added into integers in place:
    numpy's [UFuncTypeError], a [TypeError]. *)
Definition np_iadd (ary other : list Z) : result (list Z) :=
  match other with
  | [] => Raise TypeError
  | [x] => Ok (map (fun a => a + x) ary)
  | _ =>
      if (length other =? length ary)%nat then Ok (zip_with Z.add ary other)
      else Raise ValueError
  end.

Section Model.
Context {AB : ArrayBackend} {RS : RandomSource}.

(** ** Tensors held by the buffer, with their shapes *)

(** A tensor [[nrow, ncol]]: the portfolio vector memory, [[time, coin]]. *)
Record Tensor2 : Type := mkTensor2 {
  nrow : nat;
  ncol : nat;
  rows : list (list V)
}.

(** A tensor [[nfeat, ncoin, ntime]]: the coin features. *)
Record Tensor3 : Type := mkTensor3 {
  nfeat : nat;
  ncoin : nat;
  ntime : nat;
  chans : list (list (list V))
}.

Definition wf2 (t : Tensor2) : Prop :=
  length (rows t) = nrow t /\ Forall (fun r => length r = ncol t) (rows t).

Definition wf3 (t : Tensor3) : Prop :=
  length (chans t) = nfeat t /\
  Forall (fun ch => length ch = ncoin t /\
                    Forall (fun ser => length ser = ntime t) ch) (chans t).

(** [t.full([n, c], v)]. *)
Definition full2 (n c : nat) (v : V) : Tensor2 :=
  mkTensor2 n c (repeat (repeat v c) n).

(** [t.cat([a, b])] on the first axis: the other sizes must agree. *)
Definition cat3 (a b : Tensor3) : result Tensor3 :=
  if (ncoin a =? ncoin b)%nat && (ntime a =? ntime b)%nat
  then Ok (mkTensor3 (nfeat a + nfeat b) (ncoin a) (ntime a)
                     (chans a ++ chans b))
  else Raise RuntimeError.

Definition cat2 (a b : Tensor2) : result Tensor2 :=
  if (ncol a =? ncol b)%nat
  then Ok (mkTensor2 (nrow a + nrow b) (ncol a) (rows a ++ rows b))
  else Raise RuntimeError.

(** ** The buffer object and the state a call runs in *)

Record PGPBuffer : Type := mkPGPBuffer {
  _coin_features : Tensor3;
  _pvm : Tensor2;
  _batch_size : Z;
  _window_size : Z;
  _sample_bias : Q;
  _portion_reversed : bool;
  _is_unordered : bool;
  _train_idx : list Z;
  _test_idx : list Z;
  _val_idx : list Z;
  _new_exp_count : Z
}.

Definition with_pvm (b : PGPBuffer) (p : Tensor2) : PGPBuffer :=
  mkPGPBuffer (_coin_features b) p (_batch_size b) (_window_size b)
    (_sample_bias b) (_portion_reversed b) (_is_unordered b)
    (_train_idx b) (_test_idx b) (_val_idx b) (_new_exp_count b).

Definition with_coin_features (b : PGPBuffer) (f : Tensor3) : PGPBuffer :=
  mkPGPBuffer f (_pvm b) (_batch_size b) (_window_size b)
    (_sample_bias b) (_portion_reversed b) (_is_unordered b)
    (_train_idx b) (_test_idx b) (_val_idx b) (_new_exp_count b).

Definition with_train_idx (b : PGPBuffer) (l : list Z) : PGPBuffer :=
  mkPGPBuffer (_coin_features b) (_pvm b) (_batch_size b) (_window_size b)
    (_sample_bias b) (_portion_reversed b) (_is_unordered b)
    l (_test_idx b) (_val_idx b) (_new_exp_count b).

Definition with_new_exp_count (b : PGPBuffer) (n : Z) : PGPBuffer :=
  mkPGPBuffer (_coin_features b) (_pvm b) (_batch_size b) (_window_size b)
    (_sample_bias b) (_portion_reversed b) (_is_unordered b)
    (_train_idx b) (_test_idx b) (_val_idx b) n.

(** The buffer together with numpy's global generator. *)
Record World : Type := mkWorld {
  buf : PGPBuffer;
  rng : Rng
}.

(** A method call: from a state to an outcome and the state reached. *)
Definition M (A : Type) : Type := World -> result A * World.

Definition ret {A : Type} (a : A) : M A := fun w => (Ok a, w).

Definition bind {A B : Type} (c : M A) (k : A -> M B) : M B :=
  fun w =>
    match c w with
    | (Ok a, w') => k a w'
    | (Raise e, w') => (Raise e, w')
    | (OutOfFuel, w') => (OutOfFuel, w')
    end.

Definition raise {A : Type} (e : exn) : M A := fun w => (Raise e, w).

Definition out_of_fuel {A : Type} : M A := fun w => (OutOfFuel, w).

Definition get_buf : M PGPBuffer := fun w => (Ok (buf w), w).

Definition modify_buf (f : PGPBuffer -> PGPBuffer) : M unit :=
  fun w => (Ok tt, mkWorld (f (buf w)) (rng w)).

(** A pure outcome as a call. *)
Definition lift {A : Type} (r : result A) : M A := fun w => (r, w).

End Model.

Notation "x <- c ;; k" := (bind c (fun x => k))
  (at level 61, c at next level, right associativity).
Notation "c ;;; k" := (bind c (fun _ => k))
  (at level 61, right associativity).

Section Operations.
Context {AB : ArrayBackend} {RS : RandomSource}.

(** [l[i]] for an integer [i]. *)
Definition py_get {A : Type} (l : list A) (i : Z) : option A :=
  match Py.index (length l) i with
  | Some p => nth_error l p
  | None => None
  end.

(** ** Construction *)

Definition __init__ (coin_features : Tensor3) (batch_size window_size : Z)
           (test_portion validation_portion sample_bias : Q)
           (portion_reversed is_unordered : bool) : result PGPBuffer :=
  let coin_num := ncoin coin_features in
  let period_num := ntime coin_features in
  if (coin_num =? 0)%nat then Raise ZeroDivisionError
  else
    let pvm := full2 period_num coin_num (vuniform coin_num) in
    match _divide_data (Z.of_nat period_num) window_size test_portion
                       validation_portion portion_reversed with
    | Ok (train_idx, test_idx, val_idx) =>
        Ok (mkPGPBuffer coin_features pvm batch_size window_size sample_bias
              portion_reversed is_unordered train_idx test_idx val_idx 0)
    | Raise e => Raise e
    | OutOfFuel => OutOfFuel
    end.

Definition train_num (b : PGPBuffer) : nat := length (_train_idx b).
Definition test_num (b : PGPBuffer) : nat := length (_test_idx b).
Definition val_num (b : PGPBuffer) : nat := length (_val_idx b).

(** ** Online appending *)

Definition append_experience (coin_features : Tensor3)
           (pvm : option Tensor2) : M unit :=
  b <- get_buf ;;
  if negb (_portion_reversed b) then raise RuntimeError
  else
    let n := Z.of_nat (ntime coin_features) in
    modify_buf (fun b => with_new_exp_count b (_new_exp_count b + n)) ;;;
    b <- get_buf ;;
    match py_get (_train_idx b) (-1) with
    | None => raise IndexError
    | Some last =>
        idx <- lift (np_iadd (_train_idx b) (Py.range last (last + n))) ;;
        modify_buf (fun b => with_train_idx b idx) ;;;
        b <- get_buf ;;
        f <- lift (cat3 (_coin_features b) coin_features) ;;
        modify_buf (fun b => with_coin_features b f) ;;;
        match pvm with
        | None => raise AttributeError
        | Some p =>
            b <- get_buf ;;
            p' <- lift (cat2 (_pvm b) p) ;;
            modify_buf (fun b => with_pvm b p')
        end
    end.

(** ** Packing samples *)

(** The target of a packed batch: three axes, or two once [squeeze(-1)] has
    dropped a coin axis of size one. *)
Inductive Target : Type :=
| Y3 (y : list (list (list V)))
| Y2 (y : list (list V)).

(** The dictionary [_pack_samples] returns; [setw_index] is the index array
    the [setw] closure captured. *)
Record Packed : Type := mkPacked {
  X : list (list (list (list V)));
  y : Target;
  last_w : list (list V);
  setw_index : list Z
}.

(** [self._coin_features[:, :, idx:idx + window_size + 1]]. *)
Definition window (f : Tensor3) (window_size idx : Z)
  : list (list (list V)) :=
  map (map (fun ser => Py.slice ser idx (idx + window_size + 1))) (chans f).

(** [t.stack] needs at least one tensor and equal sizes: the common length of
    the time axis, if there is one. *)
Definition stack_len (lens : list nat) : option nat :=
  match lens with
  | [] => None
  | n :: rest => if forallb (Nat.eqb n) rest then Some n else None
  end.

(** [batch[:, :, :, -1] / batch[:, 0, :, -2]]: the numerator has the axes
    (sample, feature, coin), the denominator (sample, coin); broadcasting
    aligns the trailing axes, so the sample axis of the denominator meets
    the feature axis of the numerator. *)
Definition price_relative (nf : nat) (batch : list (list (list (list V))))
  : option (list (list (list V))) :=
  let num := map (map (flat_map (at_time (-1)))) batch in
  let den := map (fun smp => flat_map (at_time (-2)) (nth 0%nat smp [])) batch in
  match broadcast_dim nf (length batch) with
  | None => None
  | Some d =>
      Some (map (fun num_i =>
                   zip_with (zip_with vdiv) (expand d num_i) (expand d den))
                num)
  end.

(** [y.squeeze(-1)]. *)
Definition squeeze (nc : nat) (y3 : list (list (list V))) : Target :=
  if (nc =? 1)%nat then Y2 (map (@concat V) y3) else Y3 y3.

Definition pack_from (b : PGPBuffer) (index : list Z) : result Packed :=
  let f := _coin_features b in
  match gather (rows (_pvm b)) (nrow (_pvm b)) (map (fun i => i - 1) index) with
  | None => Raise IndexError
  | Some last_w =>
      match stack_len
              (map (fun idx => slice_len (ntime f) idx (idx + _window_size b + 1))
                   index) with
      | None => Raise RuntimeError
      | Some wl =>
          let batch := map (window f (_window_size b)) index in
          let X := map (map (map (fun ser => Py.slice_to ser (-1)))) batch in
          if (wl <? 2)%nat || (nfeat f =? 0)%nat then Raise IndexError
          else
            match price_relative (nfeat f) batch with
            | None => Raise RuntimeError
            | Some y3 => Ok (mkPacked X (squeeze (ncoin f) y3) last_w index)
            end
      end
  end.

Definition _pack_samples (index : list Z) : M Packed :=
  b <- get_buf ;; lift (pack_from b index).

(** The closure [setw]: [self._pvm[index, :] = w], with [w] of shape
    [[len(index), coin]] or broadcast from size one on either axis. *)
Definition setw (index : list Z) (w : Tensor2) : M unit :=
  b <- get_buf ;;
  let p := _pvm b in
  if ((nrow w =? length index)%nat || (nrow w =? 1)%nat)
     && ((ncol w =? ncol p)%nat || (ncol w =? 1)%nat)
  then
    let vals := expand (length index) (map (expand (ncol p)) (rows w)) in
    let '(r, rows') := scatter (rows p) (nrow p) index vals in
    modify_buf (fun b => with_pvm b (mkTensor2 (nrow p) (ncol p) rows')) ;;;
    lift r
  else raise RuntimeError.

Definition get_training_set : M Packed :=
  b <- get_buf ;; _pack_samples (_train_idx b).

Definition get_test_set : M Packed :=
  b <- get_buf ;; _pack_samples (_test_idx b).

Definition get_val_set : M Packed :=
  b <- get_buf ;; _pack_samples (_val_idx b).

(** ** The geometric sampler *)

(** [np.random.geometric(p)]: refuses a [p] outside (0, 1]. *)
Definition np_geometric (p : Q) : M Z :=
  fun w =>
    if negb (Qle_bool p 0) && Qle_bool p 1 then
      let '(k, g) := geometric_draw p (rng w) in
      (Ok (Z.pos k), mkWorld (buf w) g)
    else (Raise ValueError, w).

(** The [while] loop of [_sample_geometric], entered with the current draw;
    [fuel] bounds the number of redraws. *)
Fixpoint sample_loop (fuel : nat) (start end_ : Z) (bias : Q) (ran : Z)
  : M Z :=
  if ran >? end_ - start then
    match fuel with
    | O => out_of_fuel
    | S fuel' =>
        ran' <- np_geometric bias ;;
        sample_loop fuel' start end_ bias ran'
    end
  else ret (end_ - ran).

Definition _sample_geometric (fuel : nat) (start end_ : Z) (bias : Q) : M Z :=
  ran <- np_geometric bias ;;
  sample_loop fuel start end_ bias ran.

(** ** Training batches *)

(** [[_sample_geometric(...) for _ in range(n)]]. *)
Fixpoint sample_n (fuel n : nat) (start end_ : Z) (bias : Q) : M (list Z) :=
  match n with
  | O => ret []
  | S n' =>
      i <- _sample_geometric fuel start end_ bias ;;
      rest <- sample_n fuel n' start end_ bias ;;
      ret (i :: rest)
  end.

(** The local [batch_idx] of [next_batch]. *)
Definition batch_idx (fuel : nat) : M (list Z) :=
  b <- get_buf ;;
  match py_get (_train_idx b) 0 with
  | None => raise IndexError
  | Some start_idx =>
      match py_get (_train_idx b) (-1) with
      | None => raise IndexError
      | Some end_idx =>
          if _is_unordered b then
            sample_n fuel (Z.to_nat (_batch_size b)) start_idx end_idx
                     (_sample_bias b)
          else
            batch_start <- _sample_geometric fuel start_idx end_idx
                                             (_sample_bias b) ;;
            ret (Py.range batch_start (batch_start + _batch_size b))
      end
  end.

Definition next_batch (fuel : nat) : M Packed :=
  index <- batch_idx fuel ;;
  _pack_samples index.

(** The [n]-th draw (counting from zero) a generator yields, with the
    generator left behind. *)
Fixpoint nth_draw (bias : Q) (g : Rng) (n : nat) : positive * Rng :=
  match n with
  | O => geometric_draw bias g
  | S n' => nth_draw bias (snd (geometric_draw bias g)) n'
  end.

End Operations.

(** ** Two concrete collaborators *)

(** Exact rational elements, quotients in lowest terms. *)
Definition QBackend : ArrayBackend :=
  {| V := Q;
     vdiv := fun a b => Qred (a / b);
     vuniform := fun n => Qred (1 / inject_Z (Z.of_nat n)) |}.

(** A generator that replays a list of trial counts, then keeps drawing one. *)
Definition ReplayRandom : RandomSource :=
  {| Rng := list positive;
     geometric_draw := fun _ g =>
       match g with
       | [] => (1%positive, [])
       | k :: g' => (k, g')
       end |}.

(** ** Statements about the partitioner *)

(** Two ranges share no index. *)
Definition disjoint {A : Type} (l1 l2 : list A) : Prop :=
  forall x, In x l1 -> ~ In x l2.

(** The reading of the specification under which [_divide_data] refuses
    fractions that sum to one or more and ranges that truncate to nothing. *)
Definition divide_rejects (N w : Z) (t v : Q) (rev : bool) : Prop :=
  let '(p1, p2, p3) := split_parts N t v rev in
  ((1 <= t + v)%Q
   \/ Z.of_nat (length p1) <= w + 1
   \/ Z.of_nat (length p2) <= w + 1
   \/ Z.of_nat (length p3) <= w + 1) ->
  exists e, _divide_data N w t v rev = Raise e.

Section Statements.
Context {AB : ArrayBackend} {RS : RandomSource}.

(** The target of one sample as the specification words it: every series of
    the window at its last step over the series of the same coin in channel
    0 at the step before. *)
Definition relative_price (win : list (list (list V))) : list (list V) :=
  map (fun ch => zip_with vdiv (flat_map (at_time (-1)) ch)
                          (flat_map (at_time (-2)) (nth 0%nat win [])))
      win.

(** The target of a batch if each sample were normalised by its own window. *)
Definition claimed_target (b : PGPBuffer) (index : list Z) : Target :=
  squeeze (ncoin (_coin_features b))
          (map (fun idx => relative_price
                             (window (_coin_features b) (_window_size b) idx))
               index).

(** [pvm.shape[0] == features.shape[-1]], for the shape and for the rows
    stored. *)
Definition pvm_tracks_features (b : PGPBuffer) : Prop :=
  nrow (_pvm b) = ntime (_coin_features b) /\
  length (rows (_pvm b)) = ntime (_coin_features b).

(** The calls a training loop makes on a buffer. *)
Inductive call : Type :=
| CallAppendExperience (coin_features : Tensor3) (pvm : option Tensor2)
| CallNextBatch (fuel : nat)
| CallGetTrainingSet
| CallGetTestSet
| CallGetValSet
| CallSetw (index : list Z) (w : Tensor2).

(** The state a call leaves, whether it returned or raised. *)
Definition run_call (c : call) (w : World) : World :=
  match c with
  | CallAppendExperience f p => snd (append_experience f p w)
  | CallNextBatch fuel => snd (next_batch fuel w)
  | CallGetTrainingSet => snd (get_training_set w)
  | CallGetTestSet => snd (get_test_set w)
  | CallGetValSet => snd (get_val_set w)
  | CallSetw index t => snd (setw index t w)
  end.

Definition run_calls (cs : list call) (w : World) : World :=
  fold_left (fun w c => run_call c w) cs w.

(** The reading of the specification under which no sampled index is 0. *)
Definition never_samples_first_step (fuel : nat) (w : World) : Prop :=
  forall index w', batch_idx fuel w = (Ok index, w') -> ~ In 0 index.

(** The reading of the specification under which a returned batch stays
    inside the training range. *)
Definition batch_stays_in_train (fuel : nat) (w : World) : Prop :=
  forall p w', next_batch fuel w = (Ok p, w') ->
               incl (setw_index p) (_train_idx (buf w)).

(** What every state a run reaches satisfies: the invariant, and a train
    range that is empty or shorter than the series. *)
Definition buffer_inv (b : PGPBuffer) : Prop :=
  pvm_tracks_features b /\
  (_train_idx b = [] \/
   (length (_train_idx b) < ntime (_coin_features b))%nat).

End Statements.

(** ** Concrete buffers *)

(** The generator that will draw the trial counts [l], in order. *)
Definition replay (l : list positive) : @Rng ReplayRandom := l.

(** A buffer over no data. *)
Definition idle_buffer : @PGPBuffer QBackend :=
  mkPGPBuffer (mkTensor3 0 0 0 []) (mkTensor2 0 0 []) 0 0 0
              false false [] [] [] 0.

(** The buffer [__init__] builds, or an empty one where it raises. *)
Definition built (r : result (@PGPBuffer QBackend)) : @PGPBuffer QBackend :=
  match r with
  | Ok b => b
  | _ => idle_buffer
  end.

(** What a call of [_pack_samples] returns, or an empty batch where it
    raises. *)
Definition built_packed (r : result (@Packed QBackend)) : @Packed QBackend :=
  match r with
  | Ok p => p
  | _ => @mkPacked QBackend [] (@Y3 QBackend []) [] []
  end.

(** A series of integer prices. *)
Definition qs (l : list Z) : list Q := map inject_Z l.

(** Two channels, two coins, four periods. *)
Definition feats_2x2x4 : @Tensor3 QBackend :=
  @mkTensor3 QBackend 2 2 4 [[qs [10; 50; 100; 110]; qs [1; 2; 4; 8]];
                   [qs [3; 3; 3; 3]; qs [5; 6; 7; 8]]].

(** A buffer over them with a window size of 1 and a uniform memory. *)
Definition buffer_2x2x4 : @PGPBuffer QBackend :=
  @mkPGPBuffer QBackend feats_2x2x4 (@full2 QBackend 4 2 (1 # 2)) 2 1 (1 # 10)
              false false [] [] [] 0.

(** The same two channels over twelve periods, in a buffer built for ordered
    batches of two samples; the generator's first draw is 2. *)
Definition feats_2x2x12 : @Tensor3 QBackend :=
  @mkTensor3 QBackend 2 2 12
    [[qs [10; 50; 100; 110; 120; 130; 140; 150; 160; 170; 180; 190];
      qs [1; 2; 4; 8; 16; 32; 64; 128; 256; 512; 1024; 2048]];
     [qs [3; 3; 3; 3; 3; 3; 3; 3; 3; 3; 3; 3];
      qs [5; 6; 7; 8; 9; 10; 11; 12; 13; 14; 15; 16]]].

Definition price_buffer : @PGPBuffer QBackend :=
  built (__init__ feats_2x2x12 2 1 (1 # 4) (1 # 4) (1 # 10) false false).

Definition price_world : @World QBackend ReplayRandom :=
  mkWorld price_buffer (replay [2]%positive).

(** One channel, two coins, two periods: coin 0 moves from 100 to 110. *)
Definition feats_1x2x2 : @Tensor3 QBackend :=
  @mkTensor3 QBackend 1 2 2 [[qs [100; 110]; qs [4; 5]]].

(** One channel, one coin, four periods. *)
Definition feats_1x1x4 : @Tensor3 QBackend :=
  @mkTensor3 QBackend 1 1 4 [[qs [1; 2; 3; 4]]].

(** One more period for it. *)
Definition feats_1x1x1 : @Tensor3 QBackend :=
  @mkTensor3 QBackend 1 1 1 [[qs [5]]].

(** One row of weights for one coin. *)
Definition pvm_1x1 : @Tensor2 QBackend := @mkTensor2 QBackend 1 1 [[1%Q]].

(** A reversed buffer over four periods: its train range is [[2]]. *)
Definition online_buffer : @PGPBuffer QBackend :=
  built (__init__ feats_1x1x4 1 0 (1 # 4) (1 # 4) (1 # 10) true false).

(** Three channels, one coin, twelve periods. *)
Definition feats_3x1x12 : @Tensor3 QBackend :=
  @mkTensor3 QBackend 3 1 12 [[qs [1; 2; 3; 4; 5; 6; 7; 8; 9; 10; 11; 12]];
                    [qs [1; 1; 1; 1; 1; 1; 1; 1; 1; 1; 1; 1]];
                    [qs [2; 2; 2; 2; 2; 2; 2; 2; 2; 2; 2; 2]]].

(** Ordered batches of three samples in the default order: the train range
    is [[0; 1; 2; 3]]. *)
Definition ordered_buffer : @PGPBuffer QBackend :=
  built (__init__ feats_3x1x12 3 1 (1 # 4) (1 # 4) (1 # 10) false false).

(** One channel, two coins, eight periods, batches of one sample. *)
Definition feats_1x2x8 : @Tensor3 QBackend :=
  @mkTensor3 QBackend 1 2 8 [[qs [1; 2; 3; 4; 5; 6; 7; 8]; qs [8; 7; 6; 5; 4; 3; 2; 1]]].

(** The default order over eight periods: the train range is [[0; 1]]. *)
Definition head_buffer : @PGPBuffer QBackend :=
  built (__init__ feats_1x2x8 1 1 (1 # 4) (1 # 4) (1 # 10) false false).

(** The last PVM row of [head_buffer] overwritten, to tell it apart. *)
Definition head_world : @World QBackend ReplayRandom :=
  snd (setw [7] (@mkTensor2 QBackend 1 2 [[1; 0]]%Q)
            (mkWorld head_buffer (replay [5; 1]%positive))).

(** The first draw is 1, so the batch starts at 3 - 1 = 2. *)
Definition ordered_world : @World QBackend ReplayRandom :=
  mkWorld ordered_buffer (replay [1]%positive).

(** Ordered batches of four samples in the reversed order: the train range
    is [[6; 7; 8; 9]], and with a first draw of 1 the batch starts at 8. *)
Definition tail_buffer : @PGPBuffer QBackend :=
  built (__init__ feats_3x1x12 4 1 (1 # 4) (1 # 4) (1 # 10) true false).

Definition tail_world : @World QBackend ReplayRandom :=
  mkWorld tail_buffer (replay [1]%positive).

(** New weights for a batch of two samples over two coins. *)
Definition weights_2x2 : @Tensor2 QBackend :=
  @mkTensor2 QBackend 2 2 [[1; 0]; [0; 1]]%Q.

(** Packing the indices 1 and 2 of the first buffer. *)
Definition world_2x2x4 : @World QBackend ReplayRandom :=
  mkWorld buffer_2x2x4 (replay []).

Definition packed_1_2 : @Packed QBackend :=
  built_packed (pack_from buffer_2x2x4 [1; 2]).

(** A run of calls on [online_buffer], some of which raise. *)
Definition calls_example : list (@call QBackend) :=
  [CallAppendExperience feats_1x1x1 (Some pvm_1x1);
   CallSetw [2] pvm_1x1;
   CallNextBatch 3;
   CallAppendExperience feats_1x1x4 None;
   CallGetTrainingSet].

(** Unordered batches of three samples; the draws will be 1, 3 and 2. *)
Definition unordered_buffer : @PGPBuffer QBackend :=
  built (__init__ feats_3x1x12 3 1 (1 # 4) (1 # 4) (1 # 10) false true).

Definition unordered_world : @World QBackend ReplayRandom :=
  mkWorld unordered_buffer (replay [1; 3; 2]%positive).

(** A buffer over [feats_1x2x2] with a window size of 1. *)
Definition buffer_1x2x2 : @PGPBuffer QBackend :=
  @mkPGPBuffer QBackend feats_1x2x2 (@full2 QBackend 2 2 (1 # 2)) 1 1 (1 # 10)
               false false [] [] [] 0.

(** New weights written at the indices 0 and 1, then the indices 1 and 2
    packed. *)
Definition fed_back_world : @World QBackend ReplayRandom :=
  snd (setw [0; 1] weights_2x2 world_2x2x4).

Definition packed_after_feedback : @Packed QBackend :=
  built_packed (pack_from (buf fed_back_world) [1; 2]).

(** A binary64 float rounded to binary32 (24 bits of precision, exponents
    below 128), ties to even. *)
Definition to_float32 (x : float) : float :=
  match Prim2SF x with
  | S754_finite s m e => SF2Prim (binary_round 24 128 s m e)
  | _ => x
  end.

(** Elements in IEEE binary64, as numpy holds the features by default.  The
    memory is filled by [t.full] without a dtype, so with torch's default
    float32: the Python float [1.0 / coin_num] rounded to binary32. *)
Definition Float64Backend : ArrayBackend :=
  {| V := float;
     vdiv := PrimFloat.div;
     vuniform := fun n =>
       to_float32 (1 / Binary64.of_int (Z.of_nat n))%float |}.

(** Coin 0 moves from 100 to 110 in channel 0. *)
Definition feats_f : @Tensor3 Float64Backend :=
  @mkTensor3 Float64Backend 1 2 2 [[[100; 110]; [4; 5]]]%float.

(** * Properties *)

(** The scenario of 1000 periods with a window of 50: the ranges have
    750 - 51, 150 - 51 and 100 - 51 indices. *)
Example divide_1000 :
  _divide_data 1000 50 (15 # 100) (1 # 10) false
  = Ok (Py.range 0 699, Py.range 750 849, Py.range 900 949).
Proof. vm_compute. reflexivity. Qed.

(** A window size of -1 makes the truncation [[:-0]], which is [[:0]]: every
    range comes back empty. *)
Example divide_window_minus_one :
  _divide_data 10 (-1) (1 # 4) (1 # 4) false = Ok ([], [], []).
Proof. reflexivity. Qed.

(** ** Facts about Python sequences *)

Lemma range_length a b : length (Py.range a b) = Z.to_nat (b - a).
Proof. unfold Py.range. now rewrite length_map, length_seq. Qed.

Lemma range_In a b x : In x (Py.range a b) <-> a <= x < b.
Proof.
  unfold Py.range. rewrite in_map_iff. split.
  - intros (k & <- & Hk). apply in_seq in Hk. lia.
  - intros H. exists (Z.to_nat (x - a)). split; [lia|].
    apply in_seq. lia.
Qed.

Lemma range_NoDup a b : NoDup (Py.range a b).
Proof.
  unfold Py.range. apply Injective_map_NoDup.
  - intros i j H. lia.
  - apply seq_NoDup.
Qed.

Lemma firstn_seq_min k : forall s len,
  firstn k (seq s len) = seq s (Nat.min k len).
Proof.
  induction k as [|k IH]; intros s [|len]; simpl; try reflexivity.
  now rewrite IH.
Qed.

Lemma map_seq_range a : forall len s,
  map (fun k => a + Z.of_nat k) (seq s len)
  = Py.range (a + Z.of_nat s) (a + Z.of_nat s + Z.of_nat len).
Proof.
  unfold Py.range. induction len as [|len IH]; intros s.
  - replace (Z.to_nat _) with 0%nat by lia. reflexivity.
  - replace (Z.to_nat _) with (S len) by lia.
    cbn [seq map]. f_equal; [lia|].
    rewrite IH, <- seq_shift, map_map.
    replace (Z.to_nat _) with len by lia.
    apply map_ext. intros k. lia.
Qed.

Lemma firstn_skipn_range a b (j k : nat) :
  firstn k (skipn j (Py.range a b))
  = Py.range (a + Z.of_nat j)
             (a + Z.of_nat j + Z.of_nat (Nat.min k (Z.to_nat (b - a) - j))).
Proof.
  unfold Py.range at 1.
  rewrite skipn_map, firstn_map, skipn_seq, firstn_seq_min.
  apply map_seq_range.
Qed.

Lemma range_empty a b : b <= a -> Py.range a b = [].
Proof. intros H. unfold Py.range. now replace (Z.to_nat _) with 0%nat by lia. Qed.

(** A slice of a range whose bounds lie inside it, in order. *)
Lemma slice_range a b i j :
  0 <= i <= j -> j <= b - a ->
  Py.slice (Py.range a b) i j = Py.range (a + i) (a + j).
Proof.
  intros Hij Hj. unfold Py.slice. rewrite range_length.
  unfold Py.norm_bound.
  destruct (Z.ltb_spec i 0); [lia|]. destruct (Z.ltb_spec j 0); [lia|].
  rewrite firstn_skipn_range. f_equal; lia.
Qed.

(** [l[:-k]] for a positive [k] removes the last [k] elements. *)
Lemma slice_to_neg {A : Type} (l : list A) (k : Z) :
  0 < k -> Py.slice_to l (- k) = remove_last (Z.to_nat k) l.
Proof.
  intros Hk. unfold Py.slice_to, Py.slice, remove_last, Py.norm_bound.
  cbn [Z.ltb Z.compare]. destruct (Z.ltb_spec (- k) 0); [|lia].
  rewrite skipn_rev, rev_involutive. cbn [skipn Z.to_nat].
  rewrite Z.min_l by lia. cbn [Z.to_nat skipn]. f_equal. lia.
Qed.

Lemma remove_last_firstn {A : Type} (k : nat) (l : list A) :
  remove_last k l = firstn (length l - k) l.
Proof. unfold remove_last. now rewrite skipn_rev, rev_involutive. Qed.

(** ** Split points *)

Lemma astype_int_floor (q : Q) : (0 <= q)%Q -> astype_int q = Qfloor q.
Proof.
  destruct q as [n d]. unfold astype_int, Qle. cbn. intros H.
  apply Z.quot_div_nonneg; lia.
Qed.

Lemma split_at_rounded_down (p : Q) (N : Z) :
  (0 <= p)%Q -> 0 <= N -> split_at p N = rounded_down p N.
Proof.
  intros Hp HN. unfold split_at, rounded_down. apply astype_int_floor.
  apply Qmult_le_0_compat; [assumption|].
  unfold Qle. cbn. lia.
Qed.

Lemma rounded_down_mono (p q : Q) (N : Z) :
  (p <= q)%Q -> 0 <= N -> rounded_down p N <= rounded_down q N.
Proof.
  intros Hpq HN. unfold rounded_down. apply Qfloor_resp_le.
  apply Qmult_le_compat_r; [assumption|]. unfold Qle. cbn. lia.
Qed.

Lemma rounded_down_nonneg (p : Q) (N : Z) :
  (0 <= p)%Q -> 0 <= N -> 0 <= rounded_down p N.
Proof.
  intros Hp HN. 
  replace 0 with (rounded_down 0 N).
  - now apply rounded_down_mono.
  - unfold rounded_down. rewrite (Qfloor_comp _ (inject_Z 0)); [apply Qfloor_Z|].
    ring.
Qed.

Lemma rounded_down_le (p : Q) (N : Z) :
  (p <= 1)%Q -> 0 <= N -> rounded_down p N <= N.
Proof.
  intros Hp HN.
  replace N with (rounded_down 1 N) at 2.
  - now apply rounded_down_mono.
  - unfold rounded_down. rewrite (Qfloor_comp _ (inject_Z N)); [apply Qfloor_Z|].
    ring.
Qed.

Lemma split_parts_valid (N : Z) (t v : Q) :
  0 <= N -> (0 <= t)%Q -> (0 <= v)%Q -> (t + v <= 1)%Q ->
  let a := rounded_down (1 - t - v) N in
  let b := rounded_down (1 - t - v + t) N in
  let a' := rounded_down v N in
  let b' := rounded_down (v + t) N in
  (0 <= a <= b /\ b <= N) /\ (0 <= a' <= b' /\ b' <= N) /\
  split_parts N t v false = (Py.range 0 a, Py.range a b, Py.range b N) /\
  split_parts N t v true = (Py.range b' N, Py.range a' b', Py.range 0 a').
Proof.
  intros HN Ht Hv Htv a b a' b'.
  assert (Ha : 0 <= a) by (apply rounded_down_nonneg; [lra|lia]).
  assert (Hab : a <= b) by (apply rounded_down_mono; [lra|lia]).
  assert (Hb : b <= N) by (apply rounded_down_le; [lra|lia]).
  assert (Ha' : 0 <= a') by (apply rounded_down_nonneg; [lra|lia]).
  assert (Hab' : a' <= b') by (apply rounded_down_mono; [lra|lia]).
  assert (Hb' : b' <= N) by (apply rounded_down_le; [lra|lia]).
  repeat split; try assumption.
  - unfold split_parts, np_split3.
    rewrite !split_at_rounded_down by (try lra; lia).
    fold a b. rewrite range_length.
    rewrite !slice_range by lia.
    repeat f_equal; lia.
  - unfold split_parts, np_split3.
    rewrite !split_at_rounded_down by (try lra; lia).
    fold a' b'. rewrite range_length.
    rewrite !slice_range by lia.
    repeat f_equal; lia.
Qed.

Lemma divide_truncates (N w : Z) (t v : Q) (rev : bool) :
  0 <= w ->
  _divide_data N w t v rev
  = let '(p1, p2, p3) := split_parts N t v rev in
    let k := Z.to_nat (w + 1) in
    Ok (remove_last k p1, remove_last k p2, remove_last k p3).
Proof.
  intros Hw. unfold _divide_data.
  destruct (split_parts N t v rev) as [[p1 p2] p3].
  now rewrite !slice_to_neg by lia.
Qed.

(** ** Split points in binary64 *)







(** The scenario of 1000 periods with a window of 50 in binary64: the split
    points are 750 and 900. *)
Example divide_binary64_1000 :
  Binary64._divide_data 1000 50 0.15 0.1 false
  = Ok (Py.range 0 699, Py.range 750 849, Py.range 900 949).
Proof. vm_compute. reflexivity. Qed.

(** The binary64 products can lie just below the exact ones: with portions
    0.1 and 0.2 the second split point of ten periods is the float
    7.999999999999999, so the index 7, where exact arithmetic gives 8. *)
Example divide_binary64_below_exact :
  Binary64._divide_data 10 0 0.1 0.2 false = Ok (Py.range 0 6, [], [7; 8]) /\
  _divide_data 10 0 (1 # 10) (2 # 10) false = Ok (Py.range 0 6, [], [8]) /\
  Binary64.split_at (1 - 0.1 - 0.2 + 0.1)%float 1000 = 799 /\
  Binary64.split_at 0.29%float 100 = 28.
Proof. vm_compute. repeat split. Qed.

Lemma firstn_incl {A : Type} (n : nat) (l : list A) : incl (firstn n l) l.
Proof.
  intros x Hx. rewrite <- (firstn_skipn n l). apply in_or_app. now left.
Qed.

Lemma skipn_incl {A : Type} (n : nat) (l : list A) : incl (skipn n l) l.
Proof.
  intros x Hx. rewrite <- (firstn_skipn n l). apply in_or_app. now right.
Qed.

Lemma slice_incl {A : Type} (l : list A) (a b : Z) : incl (Py.slice l a b) l.
Proof.
  unfold Py.slice. intros x Hx.
  apply firstn_incl in Hx. now apply skipn_incl in Hx.
Qed.

Lemma slice_length_le {A : Type} (l : list A) (a b : Z) :
  (length (Py.slice l a b) <= length l)%nat.
Proof.
  unfold Py.slice. rewrite length_firstn, length_skipn. lia.
Qed.

Lemma range_disjoint a b c d : b <= c -> disjoint (Py.range a b) (Py.range c d).
Proof. intros H x Hx Hy. apply range_In in Hx, Hy. lia. Qed.

Lemma disjoint_incl {A : Type} (l1 l2 m1 m2 : list A) :
  incl l1 m1 -> incl l2 m2 -> disjoint m1 m2 -> disjoint l1 l2.
Proof. intros H1 H2 D x Hx Hy. exact (D x (H1 x Hx) (H2 x Hy)). Qed.

Lemma disjoint_sym {A : Type} (l1 l2 : list A) : disjoint l1 l2 -> disjoint l2 l1.
Proof. intros D x Hx Hy. exact (D x Hy Hx). Qed.

Lemma truncation_keeps_disjoint (p1 p2 p3 : list Z) (e N : Z) :
  disjoint p1 p2 -> disjoint p1 p3 -> disjoint p2 p3 ->
  Z.of_nat (length p1 + length p2 + length p3) <= N ->
  let q1 := Py.slice_to p1 e in
  let q2 := Py.slice_to p2 e in
  let q3 := Py.slice_to p3 e in
  disjoint q1 q2 /\ disjoint q1 q3 /\ disjoint q2 q3 /\
  Z.of_nat (length q1 + length q2 + length q3) <= N.
Proof.
  intros D12 D13 D23 HN q1 q2 q3. unfold Py.slice_to in *.
  repeat split.
  - eapply disjoint_incl; [apply slice_incl | apply slice_incl | exact D12].
  - eapply disjoint_incl; [apply slice_incl | apply slice_incl | exact D13].
  - eapply disjoint_incl; [apply slice_incl | apply slice_incl | exact D23].
  - pose proof (slice_length_le p1 0 e). pose proof (slice_length_le p2 0 e).
    pose proof (slice_length_le p3 0 e). subst q1 q2 q3. lia.
Qed.

(** C7.  For valid inputs (portions that are not negative and sum to at
    most one, a series length that is not negative) the three ranges
    [_divide_data] returns are pairwise disjoint, each has a length of zero
    or more, and their lengths sum to at most [period_num]. *)
Theorem divide_ranges_disjoint (N w : Z) (t v : Q) (rev : bool) :
  0 <= N -> (0 <= t)%Q -> (0 <= v)%Q -> (t + v <= 1)%Q ->
  exists train_idx test_idx val_idx,
    _divide_data N w t v rev = Ok (train_idx, test_idx, val_idx) /\
    disjoint train_idx test_idx /\ disjoint train_idx val_idx /\
    disjoint test_idx val_idx /\
    (0 <= length train_idx)%nat /\ (0 <= length test_idx)%nat /\
    (0 <= length val_idx)%nat /\
    Z.of_nat (length train_idx + length test_idx + length val_idx) <= N.
Proof.
  intros HN Ht Hv Htv.
  destruct (split_parts_valid N t v HN Ht Hv Htv) as (H1 & H2 & Hf & Hr).
  unfold _divide_data. destruct rev; [rewrite Hr | rewrite Hf].
  - do 3 eexists. split; [reflexivity|].
    match goal with |- disjoint (Py.slice_to ?p1 ?e) (Py.slice_to ?p2 _) /\
                       disjoint _ (Py.slice_to ?p3 _) /\ _ =>
      destruct (truncation_keeps_disjoint p1 p2 p3 e N) as (A & B & C & D)
    end.
    + apply disjoint_sym, range_disjoint; lia.
    + apply disjoint_sym, range_disjoint; lia.
    + apply disjoint_sym, range_disjoint; lia.
    + rewrite !range_length. lia.
    + repeat split; try assumption; apply Nat.le_0_l.
  - do 3 eexists. split; [reflexivity|].
    match goal with |- disjoint (Py.slice_to ?p1 ?e) (Py.slice_to ?p2 _) /\
                       disjoint _ (Py.slice_to ?p3 _) /\ _ =>
      destruct (truncation_keeps_disjoint p1 p2 p3 e N) as (A & B & C & D)
    end.
    + apply range_disjoint; lia.
    + apply range_disjoint; lia.
    + apply range_disjoint; lia.
    + rewrite !range_length. lia.
    + repeat split; try assumption; apply Nat.le_0_l.
Qed.

(** C8, the claim as stated fails: with both portions one half the sum
    reaches one and the train part is empty, and [_divide_data] returns
    ranges all the same. *)
Lemma divide_accepts_fractions_summing_to_one :
  ~ divide_rejects 4 0 (1 # 2) (1 # 2) false /\
  _divide_data 4 0 (1 # 2) (1 # 2) false = Ok ([], [0], [2]).
Proof.
  split; [|reflexivity].
  unfold divide_rejects. cbn. intros H.
  destruct H as [e He]; [left; unfold Qle; cbn; lia | discriminate He].
Qed.

Lemma remove_last_length {A : Type} (k : nat) (l : list A) :
  length (remove_last k l) = (length l - k)%nat.
Proof. rewrite remove_last_firstn, length_firstn. lia. Qed.

(** C8, as amended.  [_divide_data] validates nothing and raises nothing:
    for every series length, portions and window size [w >= 0] it returns
    the three split parts with their last [w + 1] indices removed, and a
    part of at most [w + 1] indices comes back as the empty range. *)
Theorem divide_never_raises (N w : Z) (t v : Q) (rev : bool) :
  0 <= w ->
  exists p1 p2 p3 train_idx test_idx val_idx,
    split_parts N t v rev = (p1, p2, p3) /\
    _divide_data N w t v rev = Ok (train_idx, test_idx, val_idx) /\
    train_idx = remove_last (Z.to_nat (w + 1)) p1 /\
    test_idx = remove_last (Z.to_nat (w + 1)) p2 /\
    val_idx = remove_last (Z.to_nat (w + 1)) p3 /\
    (Z.of_nat (length p1) <= w + 1 -> train_idx = []) /\
    (Z.of_nat (length p2) <= w + 1 -> test_idx = []) /\
    (Z.of_nat (length p3) <= w + 1 -> val_idx = []).
Proof.
  intros Hw. rewrite divide_truncates by assumption.
  destruct (split_parts N t v rev) as [[p1 p2] p3].
  do 6 eexists. do 5 (split; [reflexivity|]).
  repeat split; intros H; apply length_zero_iff_nil;
    rewrite remove_last_length; lia.
Qed.

Lemma divide_never_raises_witness :
  exists p1 p2 p3 train_idx test_idx val_idx,
    split_parts 4 (1 # 2) (1 # 2) false = (p1, p2, p3) /\
    _divide_data 4 0 (1 # 2) (1 # 2) false = Ok (train_idx, test_idx, val_idx) /\
    train_idx = remove_last (Z.to_nat (0 + 1)) p1 /\
    test_idx = remove_last (Z.to_nat (0 + 1)) p2 /\
    val_idx = remove_last (Z.to_nat (0 + 1)) p3 /\
    (Z.of_nat (length p1) <= 0 + 1 -> train_idx = []) /\
    (Z.of_nat (length p2) <= 0 + 1 -> test_idx = []) /\
    (Z.of_nat (length p3) <= 0 + 1 -> val_idx = []).
Proof. apply (divide_never_raises 4 0 (1 # 2) (1 # 2) false). lia. Defined.

Section Sampler.
Context {AB : ArrayBackend} {RS : RandomSource}.

Lemma np_geometric_ok (p : Q) (w : World) :
  (0 < p)%Q -> (p <= 1)%Q ->
  np_geometric p w
  = (Ok (Z.pos (fst (geometric_draw p (rng w)))),
     mkWorld (buf w) (snd (geometric_draw p (rng w)))).
Proof.
  intros H0 H1. unfold np_geometric.
  assert (Qle_bool p 0 = false) as ->.
  { destruct (Qle_bool p 0) eqn:E; [|reflexivity].
    apply Qle_bool_iff in E. lra. }
  assert (Qle_bool p 1 = true) as -> by now apply Qle_bool_iff.
  cbn. now destruct (geometric_draw p (rng w)).
Qed.

Lemma np_geometric_inv (p : Q) (w : World) (k : Z) (w' : World) :
  np_geometric p w = (Ok k, w') ->
  k = Z.pos (fst (geometric_draw p (rng w))) /\
  w' = mkWorld (buf w) (snd (geometric_draw p (rng w))).
Proof.
  unfold np_geometric.
  destruct (negb (Qle_bool p 0) && Qle_bool p 1); [|discriminate].
  destruct (geometric_draw p (rng w)) as [k0 g]. cbn.
  intros H. inversion H. now subst.
Qed.

(** What the loop has done when it returns: [n] redraws, all rejected but
    the last. *)
Lemma sample_loop_ok (start end_ : Z) (bias : Q) :
  forall fuel ran w r w',
    sample_loop fuel start end_ bias ran w = (Ok r, w') ->
    (ran <= end_ - start /\ r = end_ - ran /\ w' = w)
    \/ (ran > end_ - start /\
        exists n, (n < fuel)%nat /\
          (forall i, (i < n)%nat ->
                     Z.pos (fst (nth_draw bias (rng w) i)) > end_ - start) /\
          Z.pos (fst (nth_draw bias (rng w) n)) <= end_ - start /\
          r = end_ - Z.pos (fst (nth_draw bias (rng w) n)) /\
          w' = mkWorld (buf w) (snd (nth_draw bias (rng w) n))).
Proof.
  induction fuel as [|fuel IH]; intros ran w r w' H; cbn [sample_loop] in H;
    revert H; destruct (Z.gtb_spec ran (end_ - start)) as [Hgt|Hle]; intros H;
    try (left; unfold ret in H; inversion H; repeat split; lia).
  - right. split; [lia|].
    unfold bind in H.
    destruct (np_geometric bias w) as [[k| |] w1] eqn:E; try discriminate H.
    apply np_geometric_inv in E. destruct E as [-> ->].
    apply IH in H.
    destruct H as [(Hle & -> & ->) | (Hgt' & n & Hn & Hrej & Hacc & -> & ->)].
    + exists 0%nat. cbn [nth_draw]. repeat split; try lia.
    + exists (S n). cbn [nth_draw rng buf] in *.
      repeat split; try lia; try assumption.
      intros [|i] Hi; cbn [nth_draw]; [lia | apply Hrej; lia].
Qed.

(** C2.  For [start < end_] and a bias strictly between 0 and 1, whenever
    [_sample_geometric] returns, it returns [end_ - k] for a trial count
    [k >= 1] drawn after [n] draws that were each rejected for exceeding
    [end_ - start]; so the index returned lies in [[start, end_)].  The
    buffer is untouched and the generator has moved by [n + 1] draws. *)
Theorem sample_geometric_in_range (fuel : nat) (start end_ : Z) (bias : Q)
        (w : World) (r : Z) (w' : World) :
  start < end_ -> (0 < bias)%Q -> (bias < 1)%Q ->
  _sample_geometric fuel start end_ bias w = (Ok r, w') ->
  exists (n : nat) (k : Z),
    (n <= fuel)%nat /\
    k = Z.pos (fst (nth_draw bias (rng w) n)) /\
    (forall i, (i < n)%nat ->
               Z.pos (fst (nth_draw bias (rng w) i)) > end_ - start) /\
    1 <= k /\ k <= end_ - start /\
    r = end_ - k /\
    start <= r < end_ /\
    w' = mkWorld (buf w) (snd (nth_draw bias (rng w) n)).
Proof.
  intros Hse Hb0 Hb1 H. unfold _sample_geometric, bind in H.
  destruct (np_geometric bias w) as [[k0| |] w1] eqn:E; try discriminate H.
  apply np_geometric_inv in E. destruct E as [-> ->].
  apply sample_loop_ok in H.
  destruct H as [(Hle & -> & ->) | (Hgt & n & Hn & Hrej & Hacc & -> & ->)].
  - exists 0%nat, (Z.pos (fst (geometric_draw bias (rng w)))).
    cbn [nth_draw]. repeat split; try lia.
  - exists (S n), (Z.pos (fst (nth_draw bias (snd (geometric_draw bias (rng w))) n))).
    cbn [nth_draw rng buf] in *. repeat split; try lia; try assumption.
    intros [|i] Hi; cbn [nth_draw]; [lia | apply Hrej; lia].
Qed.

(** The sampler does return once some draw within the fuel is accepted. *)
Lemma sample_loop_returns (start end_ : Z) (bias : Q) :
  (0 < bias)%Q -> (bias <= 1)%Q ->
  forall fuel ran w,
    (ran <= end_ - start \/
     exists n, (n < fuel)%nat /\
               Z.pos (fst (nth_draw bias (rng w) n)) <= end_ - start) ->
    exists r w', sample_loop fuel start end_ bias ran w = (Ok r, w').
Proof.
  intros Hb0 Hb1. induction fuel as [|fuel IH]; intros ran w H;
    cbn [sample_loop]; destruct (Z.gtb_spec ran (end_ - start)) as [Hgt|Hle];
    try (unfold ret; eauto; fail).
  - destruct H as [H | (n & Hn & _)]; lia.
  - destruct H as [H | (n & Hn & Hacc)]; [lia|].
    unfold bind. rewrite np_geometric_ok by assumption.
    apply IH. destruct n as [|n]; cbn [nth_draw] in Hacc.
    + now left.
    + right. exists n. cbn [rng]. split; [lia | assumption].
Qed.

Lemma sample_geometric_returns (fuel : nat) (start end_ : Z) (bias : Q)
      (w : World) (n : nat) :
  (0 < bias)%Q -> (bias <= 1)%Q -> (n <= fuel)%nat ->
  Z.pos (fst (nth_draw bias (rng w) n)) <= end_ - start ->
  exists r w', _sample_geometric fuel start end_ bias w = (Ok r, w').
Proof.
  intros Hb0 Hb1 Hn Hacc. unfold _sample_geometric, bind.
  rewrite np_geometric_ok by assumption.
  apply sample_loop_returns; try assumption.
  destruct n as [|n]; cbn [nth_draw] in Hacc.
  - now left.
  - right. exists n. cbn [rng]. split; [lia | assumption].
Qed.

End Sampler.

Lemma sample_geometric_in_range_witness :
  exists (n : nat) (k : Z),
    (n <= 3)%nat /\
    k = Z.pos (fst (nth_draw (1 # 10) (replay [7; 2]%positive) n)) /\
    (forall i, (i < n)%nat ->
       Z.pos (fst (nth_draw (1 # 10) (replay [7; 2]%positive) i)) > 5 - 2) /\
    1 <= k /\ k <= 5 - 2 /\ 3 = 5 - k /\ 2 <= 3 < 5 /\
    mkWorld idle_buffer (replay [])
    = mkWorld idle_buffer (snd (nth_draw (1 # 10) (replay [7; 2]%positive) n)).
Proof.
  apply (sample_geometric_in_range 3 2 5 (1 # 10)
           (mkWorld idle_buffer (replay [7; 2]%positive)) 3).
  - lia.
  - reflexivity.
  - reflexivity.
  - reflexivity.
Defined.

(** ** Indexing, gathering and scattering rows *)

Ltac index_cases :=
  unfold Py.index;
  repeat match goal with
         | |- context [Z.leb ?a ?b] => destruct (Z.leb_spec a b)
         | |- context [Z.ltb ?a ?b] => destruct (Z.ltb_spec a b)
         end;
  cbn [andb].

Lemma index_lt (n : nat) (i : Z) (p : nat) :
  Py.index n i = Some p -> (p < n)%nat.
Proof. index_cases; intros E; inversion E; lia. Qed.

Lemma index_valid (n : nat) (i : Z) :
  - Z.of_nat n <= i < Z.of_nat n -> Py.index n i <> None.
Proof. intros Hi. index_cases; try discriminate; lia. Qed.

Lemma index_bounds (n : nat) (i : Z) (p : nat) :
  Py.index n i = Some p -> - Z.of_nat n <= i < Z.of_nat n.
Proof. index_cases; intros E; inversion E; lia. Qed.

Lemma gather_Forall2 {A : Type} (l : list A) (n : nat) :
  forall idxs out,
    gather l n idxs = Some out ->
    Forall2 (fun i r => exists p, Py.index n i = Some p /\ nth_error l p = Some r)
            idxs out.
Proof.
  induction idxs as [|i idxs IH]; intros out H; cbn in H.
  - inversion H. constructor.
  - destruct (Py.index n i) as [p|] eqn:Ei; [|discriminate].
    destruct (nth_error l p) as [r|] eqn:Er; [|discriminate].
    destruct (gather l n idxs) as [rs|] eqn:Eg; [|discriminate].
    inversion H; subst. constructor; eauto.
Qed.

Lemma set_nth_length {A : Type} (l : list A) (p : nat) (v : A) :
  length (set_nth l p v) = length l.
Proof.
  unfold set_nth. destruct (Nat.ltb_spec p (length l)); [|reflexivity].
  rewrite length_app, length_firstn. cbn [length]. rewrite length_skipn. lia.
Qed.

Lemma set_nth_same {A : Type} (l : list A) (p : nat) (v : A) :
  (p < length l)%nat -> nth_error (set_nth l p v) p = Some v.
Proof.
  intros H. unfold set_nth. destruct (Nat.ltb_spec p (length l)); [|lia].
  rewrite nth_error_app2; rewrite length_firstn; [|lia].
  replace (p - Nat.min p (length l))%nat with 0%nat by lia. reflexivity.
Qed.

Lemma set_nth_other {A : Type} (l : list A) (p k : nat) (v : A) :
  k <> p -> nth_error (set_nth l p v) k = nth_error l k.
Proof.
  intros H. unfold set_nth. destruct (Nat.ltb_spec p (length l)); [|reflexivity].
  transitivity (nth_error (firstn p l ++ skipn p l) k);
    [| now rewrite firstn_skipn].
  assert (Hp : length (firstn p l) = p) by (rewrite length_firstn; lia).
  destruct (Nat.ltb_spec k p).
  - rewrite !nth_error_app1 by lia. reflexivity.
  - rewrite !nth_error_app2 by lia. rewrite Hp.
    replace (k - p)%nat with (S (k - S p)) by lia.
    change (nth_error (v :: skipn (S p) l) (S (k - S p)))
      with (nth_error (skipn (S p) l) (k - S p)).
    rewrite !nth_error_skipn. f_equal. lia.
Qed.

Lemma scatter_length {A : Type} (n : nat) :
  forall idxs (l vals : list A) r l',
    scatter l n idxs vals = (r, l') -> length l' = length l.
Proof.
  induction idxs as [|i idxs IH]; intros l vals r l' H; cbn in H.
  - inversion H. reflexivity.
  - destruct vals as [|v vs]; [inversion H; reflexivity|].
    destruct (Py.index n i) as [p|]; [|inversion H; reflexivity].
    apply IH in H. now rewrite set_nth_length in H.
Qed.

Lemma scatter_other {A : Type} (n k : nat) :
  forall idxs (l vals : list A) r l',
    scatter l n idxs vals = (r, l') ->
    (forall i, In i idxs -> Py.index n i <> Some k) ->
    nth_error l' k = nth_error l k.
Proof.
  induction idxs as [|i idxs IH]; intros l vals r l' H Hk; cbn in H.
  - inversion H. reflexivity.
  - destruct vals as [|v vs]; [inversion H; reflexivity|].
    destruct (Py.index n i) as [p|] eqn:Ei; [|inversion H; reflexivity].
    apply IH in H; [|intros j Hj; apply Hk; now right].
    rewrite H. apply set_nth_other. intros ->. apply (Hk i); [now left|assumption].
Qed.

Lemma scatter_ok {A : Type} (n : nat) :
  forall idxs (l vals : list A),
    Forall (fun i => Py.index n i <> None) idxs ->
    exists l', scatter l n idxs vals = (Ok tt, l').
Proof.
  induction idxs as [|i idxs IH]; intros l vals Hv; cbn.
  - eauto.
  - destruct vals as [|v vs]; [eauto|].
    inversion Hv; subst.
    destruct (Py.index n i) as [p|]; [|congruence].
    now apply IH.
Qed.

Lemma scatter_written {A : Type} (n : nat) :
  forall idxs (l vals : list A) l',
    length l = n -> length vals = length idxs ->
    NoDup (map (Py.index n) idxs) ->
    scatter l n idxs vals = (Ok tt, l') ->
    Forall2 (fun i v => exists p, Py.index n i = Some p /\ nth_error l' p = Some v)
            idxs vals.
Proof.
  induction idxs as [|i idxs IH]; intros l vals l' Hl Hlen Hnd H.
  - destruct vals; [constructor | discriminate Hlen].
  - destruct vals as [|v vs]; [discriminate Hlen|]. cbn in H.
    destruct (Py.index n i) as [p|] eqn:Ei; [|discriminate H].
    cbn [map] in Hnd. rewrite Ei in Hnd.
    apply NoDup_cons_iff in Hnd. destruct Hnd as [Hnotin Hnd'].
    constructor.
    + exists p. split; [exact Ei|].
      rewrite (scatter_other _ p _ _ _ _ _ H).
      * apply set_nth_same. apply index_lt in Ei. lia.
      * intros j Hj Ej. apply Hnotin. rewrite <- Ej. now apply in_map.
    + apply (IH (set_nth l p v)); try assumption.
      * rewrite set_nth_length. exact Hl.
      * cbn in Hlen. lia.
Qed.

Lemma expand_same {A : Type} (n : nat) (l : list A) :
  length l = n -> expand n l = l.
Proof.
  intros H. destruct l as [|x [|y l]]; try reflexivity.
  cbn in H. subst. reflexivity.
Qed.

Lemma stack_len_all (lens : list nat) (n : nat) :
  stack_len lens = Some n -> lens <> [] /\ Forall (fun x => x = n) lens.
Proof.
  destruct lens as [|m rest]; cbn; [discriminate|].
  destruct (forallb (Nat.eqb m) rest) eqn:E; [|discriminate].
  intros H. inversion H; subst. split; [discriminate|].
  constructor; [reflexivity|].
  rewrite forallb_forall in E. apply Forall_forall. intros x Hx.
  symmetry. apply Nat.eqb_eq. now apply E.
Qed.

Lemma Forall2_map_left {A B C : Type} (f : A -> B) (R : B -> C -> Prop) :
  forall l l', Forall2 R (map f l) l' -> Forall2 (fun a c => R (f a) c) l l'.
Proof.
  induction l as [|a l IH]; intros l' H; inversion H; subst; constructor; auto.
Qed.

Lemma Forall2_In_left {A B : Type} (R : A -> B -> Prop) :
  forall l l' a, Forall2 R l l' -> In a l -> exists b, R a b.
Proof.
  intros l l' a H. induction H as [|x y l l' Hxy _ IH]; intros Ha.
  - destruct Ha.
  - destruct Ha as [<- | Ha]; eauto.
Qed.

Section Packing.
Context {AB : ArrayBackend} {RS : RandomSource}.

(** What a successful [pack_from] went through. *)
Lemma pack_from_inv (b : PGPBuffer) (index : list Z) (p : Packed) :
  pack_from b index = Ok p ->
  exists lw wl y3,
    gather (rows (_pvm b)) (nrow (_pvm b)) (map (fun i => i - 1) index) = Some lw /\
    stack_len (map (fun idx => slice_len (ntime (_coin_features b)) idx
                                         (idx + _window_size b + 1)) index)
    = Some wl /\
    (2 <= wl)%nat /\ nfeat (_coin_features b) <> 0%nat /\
    price_relative (nfeat (_coin_features b))
                   (map (window (_coin_features b) (_window_size b)) index)
    = Some y3 /\
    last_w p = lw /\ setw_index p = index /\
    y p = squeeze (ncoin (_coin_features b)) y3.
Proof.
  unfold pack_from. intros H.
  destruct (gather _ _ _) as [lw|]; [|discriminate].
  destruct (stack_len _) as [wl|]; [|discriminate].
  destruct (Nat.ltb_spec wl 2); [discriminate|].
  destruct (Nat.eqb_spec (nfeat (_coin_features b)) 0); [discriminate|].
  cbn [orb] in H.
  destruct (price_relative _ _) as [y3|]; [|discriminate].
  inversion H; subst. cbn. exists lw, wl, y3. auto 10.
Qed.

Lemma slice_len_index (n : nat) (a b : Z) :
  (1 <= slice_len n a b)%nat -> - Z.of_nat n + 1 <= a ->
  Py.index n a <> None.
Proof.
  unfold slice_len, Py.norm_bound. intros H Ha. apply index_valid.
  destruct (Z.ltb_spec a 0), (Z.ltb_spec b 0); lia.
Qed.

Lemma py_get_nth_error {A : Type} (l : list A) (i : Z) (p : nat) (r : A) :
  Py.index (length l) i = Some p -> nth_error l p = Some r ->
  py_get l i = Some r.
Proof. intros Hi Hr. unfold py_get. now rewrite Hi. Qed.

(** C4.  For a set of indices (distinct rows of the memory) on a buffer
    whose memory has one row per period, the prior weights [_pack_samples]
    returns are, index by index, the memory rows at [idx - 1] as they stand
    before any write-back; packing changes nothing; and calling the
    returned [setw] with new weights succeeds, leaves at the packed
    indices exactly the rows just written, and leaves every other row, the
    features and the shape of the memory as they were. *)
Theorem pack_prior_weights_then_writeback
        (w : World) (index : list Z) (p : Packed) (w1 : World)
        (wnew : Tensor2) :
  wf2 (_pvm (buf w)) ->
  nrow (_pvm (buf w)) = ntime (_coin_features (buf w)) ->
  NoDup (map (Py.index (nrow (_pvm (buf w)))) index) ->
  wf2 wnew -> nrow wnew = length index -> ncol wnew = ncol (_pvm (buf w)) ->
  _pack_samples index w = (Ok p, w1) ->
  w1 = w /\ setw_index p = index /\
  Forall2 (fun idx r => py_get (rows (_pvm (buf w))) (idx - 1) = Some r)
          index (last_w p) /\
  exists w2,
    setw (setw_index p) wnew w1 = (Ok tt, w2) /\
    Forall2 (fun idx r => py_get (rows (_pvm (buf w2))) idx = Some r)
            index (rows wnew) /\
    (forall k,
        (forall idx, In idx index ->
                     Py.index (nrow (_pvm (buf w))) idx <> Some k) ->
        nth_error (rows (_pvm (buf w2))) k = nth_error (rows (_pvm (buf w))) k) /\
    _coin_features (buf w2) = _coin_features (buf w) /\
    nrow (_pvm (buf w2)) = nrow (_pvm (buf w)).
Proof.
  intros [Hrows Hcols] Hinv Hnd [Hwrows Hwcols] Hwn Hwc H.
  unfold _pack_samples, bind, get_buf, lift in H.
  destruct (pack_from (buf w) index) as [p'| |] eqn:Ep; inversion H; subst p' w1.
  clear H.
  destruct (pack_from_inv _ _ _ Ep)
    as (lw & wl & y3 & Hg & Hs & Hwl & Hnf & Hy & Hlw & Hsi & Hyp).
  split; [reflexivity|]. split; [assumption|].
  pose proof (gather_Forall2 _ _ _ _ Hg) as Hprior.
  split.
  { rewrite Hlw. apply Forall2_map_left in Hprior.
    revert Hprior. apply Forall2_impl. intros idx r (q & Hq & Hr).
    eapply py_get_nth_error; [rewrite Hrows|]; eassumption. }
  (* every packed index denotes a row of the memory *)
  assert (Hvalid : Forall (fun i => Py.index (nrow (_pvm (buf w))) i <> None) index).
  { apply Forall_forall. intros idx Hidx.
    destruct (stack_len_all _ _ Hs) as [_ Hall].
    rewrite Forall_forall in Hall.
    specialize (Hall _ (in_map _ _ _ Hidx)). cbn beta in Hall.
    rewrite Hinv. eapply slice_len_index; [rewrite Hall; lia|].
    rewrite <- Hinv.
    apply Forall2_map_left in Hprior.
    destruct (Forall2_In_left _ _ _ _ Hprior Hidx) as (r & q & Hq & _).
    apply index_bounds in Hq. lia. }
  destruct (scatter_ok (nrow (_pvm (buf w))) index (rows (_pvm (buf w)))
                       (rows wnew) Hvalid) as [rows' Hsc].
  unfold setw, bind, get_buf, modify_buf, lift. rewrite Hsi.
  rewrite Hwn, Hwc, !Nat.eqb_refl. cbn [orb andb].
  assert (Hexp : expand (length index)
                        (map (expand (ncol (_pvm (buf w)))) (rows wnew))
                 = rows wnew).
  { rewrite expand_same.
    - rewrite <- (map_id (rows wnew)) at 2. apply map_ext_in.
      intros r Hr. apply expand_same. rewrite Forall_forall in Hwcols.
      rewrite (Hwcols r Hr). exact Hwc.
    - rewrite length_map. lia. }
  rewrite Hexp, Hsc. eexists. split; [reflexivity|]. cbn.
  repeat split.
  - pose proof (scatter_written _ _ _ _ _ Hrows (eq_trans Hwrows Hwn) Hnd Hsc) as Hw.
    pose proof (scatter_length _ _ _ _ _ _ Hsc) as Hlen'.
    revert Hw. apply Forall2_impl. intros idx r (q & Hq & Hr).
    eapply py_get_nth_error; [rewrite Hlen', Hrows|]; eassumption.
  - intros k Hk. eapply scatter_other; eassumption.
Qed.

End Packing.

Lemma zip_with_repeat {A B C : Type} (f : A -> B -> C) (d : B) :
  forall l, zip_with f l (repeat d (length l)) = map (fun x => f x d) l.
Proof.
  unfold zip_with. induction l as [|x l IH]; cbn; [reflexivity|].
  now rewrite IH.
Qed.

Lemma broadcast_dim_one (n : nat) : broadcast_dim n 1 = Some n.
Proof.
  unfold broadcast_dim. destruct (Nat.eqb_spec n 1) as [->|]; reflexivity.
Qed.

Section Target.
Context {AB : ArrayBackend} {RS : RandomSource}.

(** A batch of one sample is normalised by its own window. *)
Lemma pack_single_target (b : PGPBuffer) (idx : Z) (p : Packed) :
  length (chans (_coin_features b)) = nfeat (_coin_features b) ->
  pack_from b [idx] = Ok p ->
  y p = claimed_target b [idx].
Proof.
  intros Hwf H.
  destruct (pack_from_inv _ _ _ H)
    as (lw & wl & y3 & _ & _ & _ & _ & Hy & _ & _ & ->).
  unfold claimed_target. f_equal.
  unfold price_relative in Hy. cbn [map length] in Hy.
  rewrite broadcast_dim_one in Hy. inversion Hy; subst y3. clear Hy.
  cbn [map]. f_equal. cbn [expand].
  set (win := window (_coin_features b) (_window_size b) idx).
  assert (Hlen : length (map (flat_map (at_time (-1))) win)
                 = nfeat (_coin_features b)).
  { rewrite length_map. unfold win, window. now rewrite length_map. }
  rewrite expand_same by exact Hlen.
  rewrite <- Hlen, zip_with_repeat, map_map. reflexivity.
Qed.

End Target.

(** The synthetic example: 100 then 110 in channel 0 gives 1.10. *)
Lemma target_example_single :
  exists p,
    pack_from (@mkPGPBuffer QBackend feats_1x2x2 (@full2 QBackend 2 2 (1 # 2))
                 1 1 (1 # 10) false false [] [] [] 0) [0] = Ok p /\
    y p = @Y3 QBackend [[[11 # 10; 5 # 4]]]%Q.
Proof. eexists. split; reflexivity. Qed.

(** C1, evaluated on a buffer of two channels and two coins over twelve
    periods, with ordered batches of two samples and a window size of 1:
    the train range is [[0; 1; 2; 3]], the first draw is 2, so the batch is
    [[1; 2]].  The division aligns the sample axis of the denominator with
    the feature axis of the numerator, so channel 0 of the second sample
    (100 then 110 for coin 0) is divided by the first sample's price,
    110 / 50 = 11/5, where normalising each sample by its own window gives
    110 / 100 = 11/10. *)
Theorem pack_target_divides_by_other_sample :
  _train_idx price_buffer = [0; 1; 2; 3] /\
  exists p w',
    next_batch 3 price_world = (Ok p, w') /\
    setw_index p = [1; 2] /\
    y p = @Y3 QBackend
            [[[2; 2]; [3 # 100; 7 # 4]]; [[11 # 5; 4]; [3 # 100; 2]]]%Q /\
    claimed_target price_buffer [1; 2]
    = @Y3 QBackend
        [[[2; 2]; [3 # 50; 7 # 2]]; [[11 # 10; 2]; [3 # 100; 2]]]%Q.
Proof.
  split; [reflexivity|]. do 2 eexists. repeat split; reflexivity.
Qed.

(** Two samples over three channels do not broadcast at all. *)
Lemma pack_two_samples_three_channels :
  pack_from (@mkPGPBuffer QBackend feats_3x1x12 (@full2 QBackend 12 1 1%Q)
               2 1 (1 # 10) false false [] [] [] 0) [1; 2]
  = Raise RuntimeError.
Proof. reflexivity. Qed.

Section Append.
Context {AB : ArrayBackend} {RS : RandomSource}.

Lemma np_iadd_length (ary other r : list Z) :
  np_iadd ary other = Ok r -> length r = length ary.
Proof.
  unfold np_iadd. destruct other as [|x [|x' other]]; [discriminate| |].
  - intros H. inversion H. now rewrite length_map.
  - destruct (Nat.eqb_spec (length (x :: x' :: other)) (length ary)) as [E|E];
      [|discriminate].
    intros H. inversion H. unfold zip_with.
    rewrite length_map, length_combine. lia.
Qed.

Lemma np_iadd_ok_length (ary other r : list Z) :
  np_iadd ary other = Ok r ->
  length other = length ary \/ length other = 1%nat.
Proof.
  unfold np_iadd. destruct other as [|x [|x' other]]; [discriminate| |].
  - now right.
  - destruct (Nat.eqb_spec (length (x :: x' :: other)) (length ary)) as [E|E];
      [now left | discriminate].
Qed.

Lemma np_iadd_answers (ary other : list Z) : np_iadd ary other <> OutOfFuel.
Proof.
  unfold np_iadd. destruct other as [|x [|x' other]]; try discriminate.
  destruct (length _ =? length ary)%nat; discriminate.
Qed.

(** First half of the contract: a buffer that is not reversed refuses the
    call and stays as it was. *)
Lemma append_experience_not_reversed (f : Tensor3) (p : option Tensor2)
      (w : World) :
  _portion_reversed (buf w) = false ->
  append_experience f p w = (Raise RuntimeError, w).
Proof.
  intros H. unfold append_experience, bind, get_buf. now rewrite H.
Qed.

(** What one call of [append_experience] can change when the train range is
    shorter than the series (or empty): neither tensor, and never the
    number of train indices; and it does not return. *)
Lemma append_experience_effect (f : Tensor3) (p : option Tensor2) (w : World) :
  (_train_idx (buf w) = [] \/
   (length (_train_idx (buf w)) < ntime (_coin_features (buf w)))%nat) ->
  let r := append_experience f p w in
  _coin_features (buf (snd r)) = _coin_features (buf w) /\
  _pvm (buf (snd r)) = _pvm (buf w) /\
  length (_train_idx (buf (snd r))) = length (_train_idx (buf w)) /\
  (exists e, fst r = Raise e).
Proof.
  intros Hlen. unfold append_experience, bind, get_buf, modify_buf, lift, raise.
  cbn [buf rng].
  destruct (_portion_reversed (buf w)); cbn [negb]; [|cbn; eauto 6].
  destruct w as [b g]. cbn [buf rng] in *. cbn [with_new_exp_count _train_idx].
  destruct (py_get (_train_idx b) (-1)) as [last|] eqn:El; [|cbn; eauto 6].
  destruct (np_iadd _ _) as [idx| |] eqn:Ei; cbn; eauto 6;
    [|now apply np_iadd_answers in Ei].
  pose proof (np_iadd_length _ _ _ Ei) as Hl.
  pose proof (np_iadd_ok_length _ _ _ Ei) as Hn.
  rewrite range_length in Hn.
  unfold cat3. cbn.
  destruct (Nat.eqb_spec (ncoin (_coin_features b)) (ncoin f)); cbn; eauto 6.
  destruct (Nat.eqb_spec (ntime (_coin_features b)) (ntime f)); cbn; eauto 6.
  exfalso. destruct Hlen as [Hnil | Hlt].
  - rewrite Hnil in El. discriminate El.
  - destruct (_train_idx b); [discriminate El|]. cbn [length] in *. lia.
Qed.

(** The number of train indices never changes, whatever the buffer. *)
Lemma append_experience_train_num (f : Tensor3) (p : option Tensor2)
      (w : World) :
  train_num (buf (snd (append_experience f p w))) = train_num (buf w).
Proof.
  unfold train_num, append_experience, bind, get_buf, modify_buf, lift, raise.
  cbn [buf rng].
  destruct (_portion_reversed (buf w)); cbn [negb]; [|reflexivity].
  destruct w as [b g]. cbn [buf rng] in *. cbn [with_new_exp_count _train_idx].
  destruct (py_get (_train_idx b) (-1)) as [last|]; [|reflexivity].
  destruct (np_iadd _ _) as [idx| |] eqn:Ei; try reflexivity.
  pose proof (np_iadd_length _ _ _ Ei) as Hl. cbn.
  destruct (cat3 _ _) as [f'| |]; cbn; try assumption.
  destruct p as [p|]; cbn; try assumption.
  destruct (cat2 _ _) as [p'| |]; cbn; assumption.
Qed.

End Append.

(** C5, evaluated on a reversed buffer over four periods whose train range
    is [[2]], appending one period: the in-place [+=] on the index array
    adds [2] to each train index instead of extending the range, so
    [train_num] stays 1, and the concatenation of the features on axis 0
    then raises. *)
Theorem append_experience_adds_in_place :
  let w := mkWorld online_buffer (replay []) in
  let r := append_experience feats_1x1x1 (Some pvm_1x1) w in
  _portion_reversed online_buffer = true /\
  _train_idx online_buffer = [2] /\ train_num online_buffer = 1%nat /\
  fst r = Raise RuntimeError /\
  _train_idx (buf (snd r)) = [4] /\ train_num (buf (snd r)) = 1%nat /\
  ntime (_coin_features (buf (snd r))) = 4%nat /\
  nrow (_pvm (buf (snd r))) = 4%nat.
Proof. repeat split. Qed.

Section Invariant.
Context {AB : ArrayBackend} {RS : RandomSource}.

(** *** Calls that only read the buffer *)

Lemma np_geometric_buf (p : Q) (w : World) :
  buf (snd (np_geometric p w)) = buf w.
Proof.
  unfold np_geometric. destruct (negb _ && _); [|reflexivity].
  now destruct (geometric_draw p (rng w)).
Qed.

Lemma bind_buf {A B : Type} (c : M A) (k : A -> M B) (w : World) :
  buf (snd (c w)) = buf w ->
  (forall a w', buf (snd (k a w')) = buf w') ->
  buf (snd (bind c k w)) = buf w.
Proof.
  intros Hc Hk. unfold bind. destruct (c w) as [[a|e|] w1]; cbn in *;
    try assumption.
  now rewrite Hk.
Qed.

Lemma sample_loop_buf (start end_ : Z) (bias : Q) :
  forall fuel ran w,
    buf (snd (sample_loop fuel start end_ bias ran w)) = buf w.
Proof.
  induction fuel as [|fuel IH]; intros ran w; cbn [sample_loop];
    destruct (ran >? end_ - start); try reflexivity.
  apply bind_buf; [apply np_geometric_buf | intros; apply IH].
Qed.

Lemma sample_geometric_buf (fuel : nat) (start end_ : Z) (bias : Q) (w : World) :
  buf (snd (_sample_geometric fuel start end_ bias w)) = buf w.
Proof.
  unfold _sample_geometric.
  apply bind_buf; [apply np_geometric_buf | intros; apply sample_loop_buf].
Qed.

Lemma sample_n_buf (fuel : nat) (start end_ : Z) (bias : Q) :
  forall n w, buf (snd (sample_n fuel n start end_ bias w)) = buf w.
Proof.
  induction n as [|n IH]; intros w; cbn [sample_n]; [reflexivity|].
  apply bind_buf; [apply sample_geometric_buf|]. intros i w1.
  apply bind_buf; [apply IH | reflexivity].
Qed.

Lemma batch_idx_buf (fuel : nat) (w : World) :
  buf (snd (batch_idx fuel w)) = buf w.
Proof.
  unfold batch_idx. apply bind_buf; [reflexivity|]. intros b w1.
  destruct (py_get (_train_idx b) 0); [|reflexivity].
  destruct (py_get (_train_idx b) (-1)); [|reflexivity].
  destruct (_is_unordered b); [apply sample_n_buf|].
  apply bind_buf; [apply sample_geometric_buf | reflexivity].
Qed.

Lemma pack_samples_state (index : list Z) (w : World) :
  snd (_pack_samples index w) = w.
Proof.
  unfold _pack_samples, bind, get_buf, lift.
  now destruct (pack_from (buf w) index).
Qed.

Lemma next_batch_buf (fuel : nat) (w : World) :
  buf (snd (next_batch fuel w)) = buf w.
Proof.
  unfold next_batch. apply bind_buf; [apply batch_idx_buf|].
  intros index w1. now rewrite pack_samples_state.
Qed.

(** *** The write-back keeps every shape *)

Lemma setw_effect (index : list Z) (t : Tensor2) (w : World) :
  let w' := snd (setw index t w) in
  _coin_features (buf w') = _coin_features (buf w) /\
  _train_idx (buf w') = _train_idx (buf w) /\
  nrow (_pvm (buf w')) = nrow (_pvm (buf w)) /\
  ncol (_pvm (buf w')) = ncol (_pvm (buf w)) /\
  length (rows (_pvm (buf w'))) = length (rows (_pvm (buf w))).
Proof.
  unfold setw, bind, get_buf, modify_buf, lift, raise. cbn [buf rng].
  destruct (_ && _); [|cbn; auto].
  destruct (scatter _ _ _ _) as [r rows'] eqn:Es.
  apply scatter_length in Es. destruct r; cbn; auto.
Qed.

(** *** The invariant carried along a run *)

Lemma slice_to_shorter {A : Type} (l : list A) (k : Z) :
  0 < k -> Py.slice_to l (- k) = [] \/
           (length (Py.slice_to l (- k)) < length l)%nat.
Proof.
  intros Hk. rewrite slice_to_neg by assumption.
  destruct l as [|x l].
  - left. apply length_zero_iff_nil. now rewrite remove_last_length.
  - right. rewrite remove_last_length. cbn [length]. lia.
Qed.

Lemma split_parts_length (N : Z) (t v : Q) (rev : bool) :
  let '(p1, p2, p3) := split_parts N t v rev in
  (length p1 <= Z.to_nat N)%nat.
Proof.
  unfold split_parts, np_split3.
  destruct rev; cbv beta iota zeta;
    (etransitivity; [apply slice_length_le | rewrite range_length; lia]).
Qed.

Lemma init_inv (f : Tensor3) (bs ws : Z) (t v bias : Q) (rev unord : bool)
      (b : PGPBuffer) :
  0 <= ws ->
  __init__ f bs ws t v bias rev unord = Ok b -> buffer_inv b.
Proof.
  intros Hws. unfold __init__, _divide_data.
  destruct (ncoin f =? 0)%nat; [discriminate|].
  pose proof (split_parts_length (Z.of_nat (ntime f)) t v rev) as Hp.
  destruct (split_parts _ _ _ _) as [[p1 p2] p3].
  intros H. inversion H; subst b. clear H.
  split; [split; cbn; [reflexivity | apply repeat_length]|].
  cbn [_train_idx _coin_features].
  destruct (slice_to_shorter p1 (ws + 1)) as [E|E]; [lia | now left | right; lia].
Qed.

Lemma run_call_inv (c : call) (w : World) :
  buffer_inv (buf w) -> buffer_inv (buf (run_call c w)).
Proof.
  intros [[Hn Hr] Ht]. destruct c as [f p|fuel| | | |index t]; cbn [run_call].
  - destruct (append_experience_effect f p w Ht) as (Hf & Hp & Hl & _).
    unfold buffer_inv, pvm_tracks_features. rewrite Hf, Hp.
    repeat split; try assumption.
    destruct Ht as [Ht|Ht]; [left | right; lia].
    apply length_zero_iff_nil. rewrite Hl, Ht. reflexivity.
  - rewrite next_batch_buf. repeat split; assumption.
  - unfold get_training_set, bind, get_buf. rewrite pack_samples_state.
    repeat split; assumption.
  - unfold get_test_set, bind, get_buf. rewrite pack_samples_state.
    repeat split; assumption.
  - unfold get_val_set, bind, get_buf. rewrite pack_samples_state.
    repeat split; assumption.
  - destruct (setw_effect index t w) as (Hf & Hi & Hnr & _ & Hl).
    unfold buffer_inv, pvm_tracks_features. rewrite Hf, Hi, Hnr, Hl.
    repeat split; assumption.
Qed.

Lemma run_calls_inv (cs : list call) :
  forall w, buffer_inv (buf w) -> buffer_inv (buf (run_calls cs w)).
Proof.
  unfold run_calls. induction cs as [|c cs IH]; intros w Hw; cbn [fold_left].
  - exact Hw.
  - apply IH. now apply run_call_inv.
Qed.

(** On a buffer built with a window size of zero or more, the memory has
    one row per feature period at construction and after any sequence of
    calls (appends, batches, whole-set packs and write-backs), whether each
    call returned or raised; on such a buffer every append raises before it
    replaces a tensor. *)
Theorem pvm_tracks_features_always
        (f : Tensor3) (bs ws : Z) (t v bias : Q) (rev unord : bool)
        (b : PGPBuffer) (g : Rng) (cs : list call) :
  0 <= ws ->
  __init__ f bs ws t v bias rev unord = Ok b ->
  pvm_tracks_features b /\
  pvm_tracks_features (buf (run_calls cs (mkWorld b g))).
Proof.
  intros Hws Hb. pose proof (init_inv _ _ _ _ _ _ _ _ _ Hws Hb) as Hi.
  split; [apply Hi|]. now apply run_calls_inv.
Qed.

(** Why the window size must not be negative: with [window_size = -2] the
    truncation [[:-(window_size + 1)]] keeps the first index instead of
    dropping the last ones; on a series of one period the append then goes
    through, and the memory gains a row while the features gain a channel. *)
Example negative_window_breaks_tracking :
  let b := built (__init__ feats_1x1x1 1 (-2) 0 0 (1 # 10) true false) in
  let r := append_experience feats_1x1x1 (Some pvm_1x1)
                             (mkWorld b (replay [])) in
  _train_idx b = [0] /\ fst r = Ok tt /\
  nrow (_pvm (buf (snd r))) = 2%nat /\
  nfeat (_coin_features (buf (snd r))) = 2%nat /\
  ntime (_coin_features (buf (snd r))) = 1%nat.
Proof. repeat split. Qed.

(** On a buffer built with a window size of zero or more, no call of
    [append_experience] returns, whatever was called before. *)
Lemma append_experience_never_returns
      (f : Tensor3) (bs ws : Z) (t v bias : Q) (rev unord : bool)
      (b : PGPBuffer) (g : Rng) (cs : list call)
      (f' : Tensor3) (p' : option Tensor2) :
  0 <= ws ->
  __init__ f bs ws t v bias rev unord = Ok b ->
  exists e,
    fst (append_experience f' p' (run_calls cs (mkWorld b g))) = Raise e.
Proof.
  intros Hws Hb. pose proof (init_inv _ _ _ _ _ _ _ _ _ Hws Hb) as Hi.
  apply (run_calls_inv cs (mkWorld b g)) in Hi. destruct Hi as [_ Ht].
  now destruct (append_experience_effect f' p' _ Ht) as (_ & _ & _ & He).
Qed.

End Invariant.

(** ** When an append returns *)

Section AppendReturns.
Context {AB : ArrayBackend} {RS : RandomSource}.

(** C6.  Whenever a call of [append_experience] returns, the features have
    gained channels and no period (the concatenation runs on axis 0, not on
    the time axis) while the memory has gained the rows of the new weights:
    on a buffer whose memory had one row per feature period, new weights
    with one row per appended period leave the memory with more rows than
    the features have periods. *)
Theorem append_experience_breaks_tracking
        (f : Tensor3) (p : option Tensor2) (w w' : World) :
  pvm_tracks_features (buf w) ->
  append_experience f p w = (Ok tt, w') ->
  exists p0,
    p = Some p0 /\
    (1 <= ntime f)%nat /\
    ntime (_coin_features (buf w')) = ntime (_coin_features (buf w)) /\
    nfeat (_coin_features (buf w'))
    = (nfeat (_coin_features (buf w)) + nfeat f)%nat /\
    nrow (_pvm (buf w')) = (nrow (_pvm (buf w)) + nrow p0)%nat /\
    (nrow p0 = ntime f -> ~ pvm_tracks_features (buf w')).
Proof.
  intros [Hinv _].
  unfold append_experience, bind, get_buf, modify_buf, lift, raise.
  cbn [buf rng].
  destruct (_portion_reversed (buf w)); cbn [negb]; [|discriminate].
  destruct w as [b g]. cbn [buf rng] in *. cbn [with_new_exp_count _train_idx].
  destruct (py_get (_train_idx b) (-1)) as [last|] eqn:El; [|discriminate].
  destruct (np_iadd _ _) as [idx| |] eqn:Ei; try discriminate.
  assert (Hn : (1 <= ntime f)%nat).
  { unfold np_iadd in Ei.
    destruct (Py.range last (last + Z.of_nat (ntime f))) eqn:Er;
      [discriminate Ei|].
    apply (f_equal (@length Z)) in Er. rewrite range_length in Er.
    cbn [length] in Er. lia. }
  cbn. unfold cat3. cbn.
  destruct ((ncoin (_coin_features b) =? ncoin f)%nat
            && (ntime (_coin_features b) =? ntime f)%nat); [|discriminate].
  cbn. destruct p as [p0|]; [|discriminate]. cbn.
  unfold cat2.
  destruct (ncol (_pvm b) =? ncol p0)%nat; [|discriminate].
  cbn. intros H. inversion H; subst w'; clear H. cbn.
  exists p0. repeat split; try assumption.
  intros Hp [Hbad _]. cbn in Hbad. lia.
Qed.

End AppendReturns.

(** ** When packing returns *)

Lemma gather_ok {A : Type} (l : list A) (n : nat) :
  length l = n ->
  forall idxs,
    Forall (fun i => - Z.of_nat n <= i < Z.of_nat n) idxs ->
    exists out, gather l n idxs = Some out.
Proof.
  intros Hl. induction idxs as [|i idxs IH]; intros H; cbn [gather].
  - eauto.
  - inversion H as [|? ? Hi Hrest]; subst.
    destruct (Py.index (length l) i) as [p|] eqn:Ei;
      [|now apply index_valid in Hi].
    destruct (nth_error l p) as [r|] eqn:Er.
    + destruct (IH Hrest) as [out ->]. eauto.
    + apply nth_error_None in Er. apply index_lt in Ei. lia.
Qed.

Lemma stack_len_const {A : Type} (f : A -> nat) (n : nat) (l : list A) :
  l <> [] -> (forall x, In x l -> f x = n) -> stack_len (map f l) = Some n.
Proof.
  destruct l as [|x l]; [congruence|]. intros _ H. cbn [map stack_len].
  rewrite (H x (or_introl eq_refl)).
  assert (E : forallb (Nat.eqb n) (map f l) = true).
  { apply forallb_forall. intros m Hm. apply in_map_iff in Hm.
    destruct Hm as (z & <- & Hz). apply Nat.eqb_eq. symmetry.
    apply H. now right. }
  now rewrite E.
Qed.

Lemma slice_len_inside (n : nat) (a k : Z) :
  0 <= a -> 0 <= k -> a + k <= Z.of_nat n -> slice_len n a (a + k) = Z.to_nat k.
Proof.
  intros Ha Hk Hn. unfold slice_len, Py.norm_bound.
  destruct (Z.ltb_spec a 0); [lia|]. destruct (Z.ltb_spec (a + k) 0); lia.
Qed.

Section Returns.
Context {AB : ArrayBackend} {RS : RandomSource}.

(** [pack_from] returns when every window lies inside the tensor, holds at
    least two steps, and the batch size broadcasts against the channels. *)
Lemma pack_from_returns (b : PGPBuffer) (index : list Z) :
  let T := Z.of_nat (ntime (_coin_features b)) in
  index <> [] ->
  Forall (fun idx => 0 <= idx /\ idx + _window_size b + 1 <= T) index ->
  1 <= _window_size b ->
  pvm_tracks_features b ->
  nfeat (_coin_features b) <> 0%nat ->
  broadcast_dim (nfeat (_coin_features b)) (length index) <> None ->
  exists p, pack_from b index = Ok p /\ setw_index p = index.
Proof.
  intros T Hne Hwin Hws [Hn Hr] Hnf Hbc. unfold pack_from.
  rewrite Forall_forall in Hwin.
  destruct (gather_ok (rows (_pvm b)) (nrow (_pvm b))) with
    (idxs := map (fun i => i - 1) index) as [lw ->].
  { now rewrite Hr, Hn. }
  { apply Forall_forall. intros j Hj. apply in_map_iff in Hj.
    destruct Hj as (idx & <- & Hidx). specialize (Hwin idx Hidx).
    rewrite Hn. fold T. lia. }
  rewrite (stack_len_const _ (Z.to_nat (_window_size b + 1))); [|assumption|].
  - destruct (Nat.ltb_spec (Z.to_nat (_window_size b + 1)) 2); [lia|].
    destruct (Nat.eqb_spec (nfeat (_coin_features b)) 0); [contradiction|].
    cbn [orb]. unfold price_relative. rewrite length_map.
    destruct (broadcast_dim _ _); [|contradiction]. eauto.
  - intros idx Hidx. specialize (Hwin idx Hidx).
    replace (idx + _window_size b + 1) with (idx + (_window_size b + 1)) by lia.
    apply slice_len_inside; fold T; lia.
Qed.

End Returns.

(** ** Training batches *)

Section Batches.
Context {AB : ArrayBackend} {RS : RandomSource}.

Lemma sample_geometric_bounds (fuel : nat) (start end_ : Z) (bias : Q)
      (w : World) (r : Z) (w' : World) :
  _sample_geometric fuel start end_ bias w = (Ok r, w') ->
  start <= r < end_.
Proof.
  intros H. unfold _sample_geometric, bind in H.
  destruct (np_geometric bias w) as [[k0| |] w1] eqn:E; try discriminate H.
  apply np_geometric_inv in E. destruct E as [-> ->].
  apply sample_loop_ok in H.
  destruct H as [(Hle & -> & ->) | (Hgt & n & Hn & Hrej & Hacc & -> & ->)]; lia.
Qed.

Lemma sample_n_bounds (fuel : nat) (start end_ : Z) (bias : Q) :
  forall n w l w',
    sample_n fuel n start end_ bias w = (Ok l, w') ->
    Forall (fun r => start <= r < end_) l.
Proof.
  induction n as [|n IH]; intros w l w' H; cbn [sample_n] in H.
  - inversion H. constructor.
  - unfold bind in H.
    destruct (_sample_geometric fuel start end_ bias w) as [[i| |] w1] eqn:E;
      try discriminate H.
    destruct (sample_n fuel n start end_ bias w1) as [[rest| |] w2] eqn:E2;
      try discriminate H.
    inversion H; subst. constructor.
    + eapply sample_geometric_bounds; eassumption.
    + eapply IH; eassumption.
Qed.

(** C9, as amended.  Every index of the batch [next_batch] packs is at
    least the first train index, so index 0 (whose prior weights are read
    at position -1) is excluded exactly when the train range starts above
    0. *)
Theorem batch_idx_not_below_train_start
        (fuel : nat) (w : World) (index : list Z) (w' : World) (start : Z) :
  py_get (_train_idx (buf w)) 0 = Some start ->
  batch_idx fuel w = (Ok index, w') ->
  Forall (fun i => start <= i) index /\ (0 < start -> ~ In 0 index).
Proof.
  intros Hs H.
  assert (Hall : Forall (fun i => start <= i) index).
  { unfold batch_idx, bind, get_buf in H. rewrite Hs in H.
    destruct (py_get (_train_idx (buf w)) (-1)) as [end_idx|];
      [|discriminate H].
    destruct (_is_unordered (buf w)).
    - apply sample_n_bounds in H. revert H. apply Forall_impl. intros; lia.
    - destruct (_sample_geometric _ _ _ _ w) as [[s| |] w1] eqn:E;
        try discriminate H.
      apply sample_geometric_bounds in E. inversion H; subst.
      apply Forall_forall. intros i Hi. apply range_In in Hi. lia. }
  split; [exact Hall|].
  intros Hpos H0. rewrite Forall_forall in Hall. specialize (Hall 0 H0). lia.
Qed.

(** An ordered batch of two or more whose last window runs past the end of
    the tensor: stacking windows of unequal length, or reading a row or a
    step that does not exist, raises. *)
Lemma next_batch_ordered_raises_past_end
        (fuel : nat) (w : World) (s : Z) (w1 : World) :
  let b := buf w in
  let T := Z.of_nat (ntime (_coin_features b)) in
  _is_unordered b = false ->
  2 <= _batch_size b -> 0 <= _window_size b -> 0 <= s ->
  batch_idx fuel w = (Ok (Py.range s (s + _batch_size b)), w1) ->
  T < s + _batch_size b + _window_size b ->
  exists e, next_batch fuel w = (Raise e, w1) /\
            (e = RuntimeError \/ e = IndexError).
Proof.
  intros b T Hord HB Hws Hs Hidx Hpast.
  pose proof (batch_idx_buf fuel w) as Hbuf. rewrite Hidx in Hbuf.
  cbn [snd] in Hbuf.
  unfold next_batch, bind. rewrite Hidx.
  unfold _pack_samples, bind, get_buf, lift. rewrite Hbuf. fold b.
  unfold pack_from.
  destruct (gather _ _ _) as [lw|]; [|eauto].
  fold T.
  destruct (stack_len _) as [wl|] eqn:Est; [|eauto].
  destruct (stack_len_all _ _ Est) as [_ Hall].
  rewrite Forall_forall in Hall.
  assert (H1 : In s (Py.range s (s + _batch_size b)))
    by (apply range_In; lia).
  assert (H2 : In (s + _batch_size b - 1) (Py.range s (s + _batch_size b)))
    by (apply range_In; lia).
  pose proof (Hall _ (in_map (fun idx => slice_len (ntime (_coin_features b)) idx
                                          (idx + _window_size b + 1)) _ _ H1)) as L1.
  pose proof (Hall _ (in_map (fun idx => slice_len (ntime (_coin_features b)) idx
                                          (idx + _window_size b + 1)) _ _ H2)) as L2.
  cbn beta in L1, L2.
  assert (Hwl : (wl < 2)%nat).
  { unfold slice_len, Py.norm_bound in L1, L2. fold T in L1, L2.
    destruct (Z.ltb_spec s 0); [lia|].
    destruct (Z.ltb_spec (s + _window_size b + 1) 0); [lia|].
    destruct (Z.ltb_spec (s + _batch_size b - 1) 0); [lia|].
    destruct (Z.ltb_spec (s + _batch_size b - 1 + _window_size b + 1) 0); [lia|].
    lia. }
  destruct (Nat.ltb_spec wl 2); [|lia]. cbn [orb]. eauto.
Qed.

(** An ordered batch whose windows all lie inside the tensor is packed,
    wherever the train range ends. *)
Lemma next_batch_ordered_returns_inside
      (fuel : nat) (w : World) (s : Z) (w1 : World) :
  let b := buf w in
  let T := Z.of_nat (ntime (_coin_features b)) in
  1 <= _batch_size b -> 1 <= _window_size b -> 0 <= s ->
  batch_idx fuel w = (Ok (Py.range s (s + _batch_size b)), w1) ->
  s + _batch_size b + _window_size b <= T ->
  pvm_tracks_features b ->
  nfeat (_coin_features b) <> 0%nat ->
  broadcast_dim (nfeat (_coin_features b)) (Z.to_nat (_batch_size b)) <> None ->
  exists p, next_batch fuel w = (Ok p, w1) /\
            setw_index p = Py.range s (s + _batch_size b).
Proof.
  intros b T HB Hws Hs Hidx Hfit Hinv Hnf Hbc.
  pose proof (batch_idx_buf fuel w) as Hbuf. rewrite Hidx in Hbuf.
  cbn [snd] in Hbuf.
  unfold next_batch, bind. rewrite Hidx.
  unfold _pack_samples, bind, get_buf, lift. rewrite Hbuf. fold b.
  destruct (pack_from_returns b (Py.range s (s + _batch_size b)))
    as (p & Hp & Hsi).
  - intros E. apply (f_equal (@length Z)) in E.
    rewrite range_length in E. cbn in E. lia.
  - apply Forall_forall. intros idx Hin. apply range_In in Hin. fold T. lia.
  - assumption.
  - assumption.
  - assumption.
  - rewrite range_length.
    now replace (s + _batch_size b - s) with (_batch_size b) by lia.
  - rewrite Hp. eauto.
Qed.

(** C10, as amended.  In ordered mode with a batch size of two or more and
    a sampled start [s >= 0], [next_batch] raises and returns no batch
    whenever the last window of the batch, which ends at
    [s + batch_size + window_size], runs past the end of the feature
    tensor.  The training range is not checked: when every window lies
    inside the tensor (and holds two steps or more, the memory has a row
    per period, and the batch size broadcasts against the channels) the
    batch [[s, s + batch_size)] is returned. *)
Theorem next_batch_ordered_checks_tensor_only
        (fuel : nat) (w : World) (s : Z) (w1 : World) :
  let b := buf w in
  let T := Z.of_nat (ntime (_coin_features b)) in
  _is_unordered b = false ->
  2 <= _batch_size b -> 0 <= _window_size b -> 0 <= s ->
  batch_idx fuel w = (Ok (Py.range s (s + _batch_size b)), w1) ->
  (T < s + _batch_size b + _window_size b ->
   exists e, next_batch fuel w = (Raise e, w1) /\
             (e = RuntimeError \/ e = IndexError)) /\
  (s + _batch_size b + _window_size b <= T ->
   1 <= _window_size b ->
   pvm_tracks_features b ->
   nfeat (_coin_features b) <> 0%nat ->
   broadcast_dim (nfeat (_coin_features b)) (Z.to_nat (_batch_size b))
   <> None ->
   exists p, next_batch fuel w = (Ok p, w1) /\
             setw_index p = Py.range s (s + _batch_size b)).
Proof.
  intros b T Hord HB Hws Hs Hidx. split.
  - intros Hpast.
    now apply (next_batch_ordered_raises_past_end fuel w s w1).
  - intros Hfit Hws1 Hinv Hnf Hbc. subst b T.
    apply (next_batch_ordered_returns_inside fuel w s w1);
      cbv zeta; try assumption; lia.
Qed.

End Batches.

(** C9, the claim as stated fails: on a buffer in the default order the
    train range starts at 0; here the sampler returns 0 and the prior
    weights are the last row of the memory. *)
Lemma head_buffer_samples_first_step :
  ~ never_samples_first_step 3 head_world /\
  exists p w',
    next_batch 3 head_world = (Ok p, w') /\
    setw_index p = [0] /\ last_w p = [[1; 0]]%Q /\
    py_get (rows (_pvm (buf head_world))) (-1) = Some [1; 0]%Q.
Proof.
  split.
  - intros H. apply (H [0] (mkWorld (buf head_world) (replay []))).
    + reflexivity.
    + now left.
  - do 2 eexists. repeat split; reflexivity.
Qed.

Lemma divide_ranges_disjoint_witness :
  exists train_idx test_idx val_idx,
    _divide_data 1000 50 (15 # 100) (1 # 10) false
    = Ok (train_idx, test_idx, val_idx) /\
    disjoint train_idx test_idx /\ disjoint train_idx val_idx /\
    disjoint test_idx val_idx /\
    (0 <= length train_idx)%nat /\ (0 <= length test_idx)%nat /\
    (0 <= length val_idx)%nat /\
    Z.of_nat (length train_idx + length test_idx + length val_idx) <= 1000.
Proof.
  apply (divide_ranges_disjoint 1000 50 (15 # 100) (1 # 10) false).
  - lia.
  - unfold Qle; cbn; lia.
  - unfold Qle; cbn; lia.
  - unfold Qle; cbn; lia.
Defined.

Lemma pack_prior_weights_then_writeback_witness :
  world_2x2x4 = world_2x2x4 /\ setw_index packed_1_2 = [1; 2] /\
  Forall2 (fun idx r => py_get (rows (_pvm (buf world_2x2x4))) (idx - 1) = Some r)
          [1; 2] (last_w packed_1_2) /\
  exists w2,
    setw (setw_index packed_1_2) weights_2x2 world_2x2x4 = (Ok tt, w2) /\
    Forall2 (fun idx r => py_get (rows (_pvm (buf w2))) idx = Some r)
            [1; 2] (rows weights_2x2) /\
    (forall k,
        (forall idx, In idx [1; 2] ->
                     Py.index (nrow (_pvm (buf world_2x2x4))) idx <> Some k) ->
        nth_error (rows (_pvm (buf w2))) k
        = nth_error (rows (_pvm (buf world_2x2x4))) k) /\
    _coin_features (buf w2) = _coin_features (buf world_2x2x4) /\
    nrow (_pvm (buf w2)) = nrow (_pvm (buf world_2x2x4)).
Proof.
  apply (pack_prior_weights_then_writeback world_2x2x4 [1; 2] packed_1_2
           world_2x2x4 weights_2x2).
  - split; [reflexivity | repeat constructor].
  - reflexivity.
  - cbn. repeat constructor.
    + intros [H|[]]. discriminate H.
    + intros [].
  - split; [reflexivity | repeat constructor].
  - reflexivity.
  - reflexivity.
  - reflexivity.
Defined.


Lemma append_experience_breaks_tracking_witness :
  let b := built (__init__ feats_1x1x1 1 (-2) 0 0 (1 # 10) true false) in
  let w := mkWorld b (replay []) in
  let r := append_experience feats_1x1x1 (Some pvm_1x1) w in
  pvm_tracks_features b /\ fst r = Ok tt /\
  ~ pvm_tracks_features (buf (snd r)).
Proof.
  intros b w r.
  assert (Hinv : pvm_tracks_features (buf w)) by (split; reflexivity).
  split; [exact Hinv|]. split; [reflexivity|].
  destruct (append_experience_breaks_tracking
              feats_1x1x1 (Some pvm_1x1) w (snd r) Hinv eq_refl)
    as (p0 & Ep & _ & _ & _ & _ & Hbreak).
  apply Hbreak. injection Ep as <-. reflexivity.
Defined.

Lemma pvm_tracks_features_always_witness :
  pvm_tracks_features online_buffer /\
  pvm_tracks_features
    (buf (run_calls calls_example (mkWorld online_buffer (replay [])))).
Proof.
  apply (pvm_tracks_features_always feats_1x1x4 1 0 (1 # 4) (1 # 4) (1 # 10)
           true false online_buffer (replay []) calls_example).
  - lia.
  - reflexivity.
Defined.

Lemma batch_idx_not_below_train_start_witness :
  Forall (fun i => 6 <= i) [8; 9; 10; 11] /\ (0 < 6 -> ~ In 0 [8; 9; 10; 11]).
Proof.
  apply (batch_idx_not_below_train_start 3 tail_world [8; 9; 10; 11]
           (mkWorld tail_buffer (replay [])) 6).
  - reflexivity.
  - reflexivity.
Defined.

Lemma next_batch_ordered_checks_tensor_only_witness :
  (12 < 8 + 4 + 1 ->
   exists e,
     next_batch 3 tail_world = (Raise e, mkWorld tail_buffer (replay [])) /\
     (e = RuntimeError \/ e = IndexError)) /\
  (8 + 4 + 1 <= 12 ->
   1 <= 1 ->
   pvm_tracks_features tail_buffer ->
   3%nat <> 0%nat ->
   broadcast_dim 3 (Z.to_nat 4) <> None ->
   exists p,
     next_batch 3 tail_world = (Ok p, mkWorld tail_buffer (replay [])) /\
     setw_index p = Py.range 8 (8 + 4)).
Proof.
  apply (next_batch_ordered_checks_tensor_only 3 tail_world 8
           (mkWorld tail_buffer (replay []))).
  - reflexivity.
  - cbn. lia.
  - cbn. lia.
  - lia.
  - reflexivity.
Defined.

(** C10, the claim as stated fails: the train range is [[0; 1; 2; 3]], the
    sampled start is 2 and the batch of three is [[2; 3; 4]], returned
    without an error. *)
Lemma ordered_batch_leaves_train_range :
  ~ batch_stays_in_train 3 ordered_world /\
  _train_idx (buf ordered_world) = [0; 1; 2; 3] /\
  exists p w',
    next_batch 3 ordered_world = (Ok p, w') /\ setw_index p = [2; 3; 4].
Proof.
  split; [|split; [reflexivity | do 2 eexists; split; reflexivity]].
  intros H.
  specialize (H (built_packed (fst (next_batch 3 ordered_world)))
                (mkWorld ordered_buffer (replay []))).
  assert (Hin : In 4 [0; 1; 2; 3]).
  { apply H; [reflexivity|]. vm_compute. auto. }
  cbn in Hin. intuition lia.
Qed.

(** The weight the memory starts from over three coins: 1/3 rounded to
    binary32, which is not the double nearest to 1/3. *)
Example uniform_weight_float32 :
  @vuniform Float64Backend 3 = 0x1.555556p-2%float /\
  @vuniform Float64Backend 3 <> (1 / 3)%float /\
  @vuniform Float64Backend 2 = 0.5%float.
Proof.
  split; [reflexivity|]. split; [|reflexivity].
  intros H. apply (f_equal Prim2SF) in H. vm_compute in H. discriminate H.
Qed.

(** The same example in binary64: 110 / 100 is the double nearest to 1.1. *)
Lemma target_example_float64 :
  exists p,
    pack_from (@mkPGPBuffer Float64Backend feats_f (@full2 Float64Backend 2 2 0.5%float)
                 1 1 (1 # 10) false false [] [] [] 0) [0] = Ok p /\
    y p = @Y3 Float64Backend [[[0x1.199999999999ap+0; 1.25]]]%float.
Proof. eexists. split; reflexivity. Qed.

(** * Further properties of the buffer *)

Section SamplingAndBatches.
Context {AB : ArrayBackend} {RS : RandomSource}.

(** The loop entered with a rejected draw, when the generator's draw of
    rank [m] is the first one accepted. *)
Lemma sample_loop_first_accepted (start end_ : Z) (bias : Q) :
  (0 < bias)%Q -> (bias <= 1)%Q ->
  forall m fuel ran w,
    (m < fuel)%nat -> ran > end_ - start ->
    (forall i, (i < m)%nat ->
               Z.pos (fst (nth_draw bias (rng w) i)) > end_ - start) ->
    Z.pos (fst (nth_draw bias (rng w) m)) <= end_ - start ->
    sample_loop fuel start end_ bias ran w
    = (Ok (end_ - Z.pos (fst (nth_draw bias (rng w) m))),
       mkWorld (buf w) (snd (nth_draw bias (rng w) m))).
Proof.
  intros Hb0 Hb1.
  induction m as [|m IH]; intros fuel ran w Hm Hran Hrej Hacc;
    (destruct fuel as [|fuel]; [lia|]); cbn [sample_loop];
    (destruct (Z.gtb_spec ran (end_ - start)); [|lia]);
    unfold bind; rewrite np_geometric_ok by assumption.
  - cbn [nth_draw] in *. destruct fuel; cbn [sample_loop];
      (destruct (Z.gtb_spec (Z.pos (fst (geometric_draw bias (rng w))))
                            (end_ - start)); [lia|]); reflexivity.
  - cbn [nth_draw] in *.
    rewrite (IH fuel _ (mkWorld (buf w) (snd (geometric_draw bias (rng w)))));
      cbn [rng buf]; try reflexivity; try lia; try assumption.
    + specialize (Hrej 0%nat). cbn [nth_draw] in Hrej. lia.
    + intros i Hi. apply (Hrej (S i)). lia.
Qed.

(** X2.  With a bias in (0, 1], if the draw of rank [n] is the first one
    that does not exceed [end_ - start] and the fuel allows [n] redraws,
    [_sample_geometric] returns [end_] minus that draw, leaves the buffer
    alone and moves the generator by exactly [n + 1] draws. *)
Theorem sample_geometric_first_accepted
        (fuel : nat) (start end_ : Z) (bias : Q) (w : World) (n : nat) :
  (0 < bias)%Q -> (bias <= 1)%Q -> (n <= fuel)%nat ->
  (forall i, (i < n)%nat ->
             Z.pos (fst (nth_draw bias (rng w) i)) > end_ - start) ->
  Z.pos (fst (nth_draw bias (rng w) n)) <= end_ - start ->
  _sample_geometric fuel start end_ bias w
  = (Ok (end_ - Z.pos (fst (nth_draw bias (rng w) n))),
     mkWorld (buf w) (snd (nth_draw bias (rng w) n))).
Proof.
  intros Hb0 Hb1 Hn Hrej Hacc. unfold _sample_geometric, bind.
  rewrite np_geometric_ok by assumption.
  destruct n as [|n]; cbn [nth_draw] in *.
  - destruct fuel; cbn [sample_loop];
      (destruct (Z.gtb_spec (Z.pos (fst (geometric_draw bias (rng w))))
                            (end_ - start)); [lia|]); reflexivity.
  - rewrite (sample_loop_first_accepted start end_ bias Hb0 Hb1 n fuel _
               (mkWorld (buf w) (snd (geometric_draw bias (rng w)))));
      cbn [rng buf]; try reflexivity; try lia; try assumption.
    + specialize (Hrej 0%nat). cbn [nth_draw] in Hrej. lia.
    + intros i Hi. apply (Hrej (S i)). lia.
Qed.

(** With nothing to choose from, every draw is rejected. *)
Lemma sample_loop_out_of_fuel (start end_ : Z) (bias : Q) :
  (0 < bias)%Q -> (bias <= 1)%Q -> end_ <= start ->
  forall fuel ran w,
    0 < ran -> fst (sample_loop fuel start end_ bias ran w) = OutOfFuel.
Proof.
  intros Hb0 Hb1 Hes. induction fuel as [|fuel IH]; intros ran w Hran;
    cbn [sample_loop]; (destruct (Z.gtb_spec ran (end_ - start)); [|lia]).
  - reflexivity.
  - unfold bind. rewrite np_geometric_ok by assumption. apply IH. lia.
Qed.

(** X3.  With [end_ <= start] every draw, being at least one, exceeds
    [end_ - start]: the loop of [_sample_geometric] rejects all of them and
    gives no answer within any number of redraws. *)
Theorem sample_geometric_rejects_forever
        (fuel : nat) (start end_ : Z) (bias : Q) (w : World) :
  (0 < bias)%Q -> (bias <= 1)%Q -> end_ <= start ->
  fst (_sample_geometric fuel start end_ bias w) = OutOfFuel.
Proof.
  intros Hb0 Hb1 Hes. unfold _sample_geometric, bind.
  rewrite np_geometric_ok by assumption.
  apply sample_loop_out_of_fuel; try assumption. lia.
Qed.

(** X4.  When the first train index is not below the last one (a train
    range of a single index, for one), [next_batch] never returns: in
    ordered mode, and in unordered mode with a batch size of one or more,
    the sampler it calls rejects every draw. *)
Theorem next_batch_never_returns_on_short_range
        (fuel : nat) (w : World) (s e : Z) :
  py_get (_train_idx (buf w)) 0 = Some s ->
  py_get (_train_idx (buf w)) (-1) = Some e ->
  e <= s ->
  (0 < _sample_bias (buf w))%Q -> (_sample_bias (buf w) <= 1)%Q ->
  _is_unordered (buf w) = false \/ 1 <= _batch_size (buf w) ->
  fst (next_batch fuel w) = OutOfFuel.
Proof.
  intros Hs He Hes Hb0 Hb1 Hmode.
  assert (Hsg : forall w0, fst (_sample_geometric fuel s e (_sample_bias (buf w)) w0)
                           = OutOfFuel).
  { intros w0. unfold _sample_geometric, bind.
    rewrite np_geometric_ok by assumption.
    apply sample_loop_out_of_fuel; try assumption. lia. }
  unfold next_batch, batch_idx, bind, get_buf. rewrite Hs, He.
  destruct (_is_unordered (buf w)).
  - destruct Hmode as [Hm|Hm]; [discriminate|].
    destruct (Z.to_nat (_batch_size (buf w))) as [|n] eqn:En; [lia|].
    cbn [sample_n]. unfold bind. specialize (Hsg w).
    destruct (_sample_geometric fuel s e (_sample_bias (buf w)) w) as [[r| |] w1];
      cbn in Hsg; try discriminate. reflexivity.
  - specialize (Hsg w).
    destruct (_sample_geometric fuel s e (_sample_bias (buf w)) w) as [[r| |] w1];
      cbn in Hsg; try discriminate. reflexivity.
Qed.

(** X5.  On an empty train range [next_batch] raises [IndexError] (from
    [self._train_idx[0]]) before any draw, and the state is unchanged. *)
Theorem next_batch_empty_train (fuel : nat) (w : World) :
  _train_idx (buf w) = [] ->
  next_batch fuel w = (Raise IndexError, w).
Proof.
  intros H. unfold next_batch, batch_idx, bind, get_buf. now rewrite H.
Qed.

(** X6.  [get_training_set], [get_test_set] and [get_val_set] raise
    [RuntimeError] when their range is empty (there is nothing to stack),
    and leave the state unchanged. *)
Theorem get_sets_empty (w : World) :
  (_train_idx (buf w) = [] -> get_training_set w = (Raise RuntimeError, w)) /\
  (_test_idx (buf w) = [] -> get_test_set w = (Raise RuntimeError, w)) /\
  (_val_idx (buf w) = [] -> get_val_set w = (Raise RuntimeError, w)).
Proof.
  repeat split; intros H;
    unfold get_training_set, get_test_set, get_val_set, _pack_samples,
      bind, get_buf, lift, pack_from; rewrite H; reflexivity.
Qed.

Lemma sample_n_length (fuel : nat) (start end_ : Z) (bias : Q) :
  forall n w l w',
    sample_n fuel n start end_ bias w = (Ok l, w') -> length l = n.
Proof.
  induction n as [|n IH]; intros w l w' H; cbn [sample_n] in H.
  - inversion H. reflexivity.
  - unfold bind in H.
    destruct (_sample_geometric fuel start end_ bias w) as [[i| |] w1];
      try discriminate H.
    destruct (sample_n fuel n start end_ bias w1) as [[rest| |] w2] eqn:E2;
      try discriminate H.
    inversion H; subst. cbn. f_equal. eapply IH; eassumption.
Qed.

(** X7.  In unordered mode the batch of [next_batch] has exactly
    [batch_size] indices (none for a batch size below one), each at least
    the first train index and strictly below the last one, so the last
    train index is never sampled; the buffer is unchanged. *)
Theorem batch_idx_unordered
        (fuel : nat) (w : World) (s e : Z) (index : list Z) (w' : World) :
  _is_unordered (buf w) = true ->
  py_get (_train_idx (buf w)) 0 = Some s ->
  py_get (_train_idx (buf w)) (-1) = Some e ->
  batch_idx fuel w = (Ok index, w') ->
  length index = Z.to_nat (_batch_size (buf w)) /\
  Forall (fun i => s <= i < e) index /\
  buf w' = buf w.
Proof.
  intros Hu Hs He H.
  pose proof (batch_idx_buf fuel w) as Hbuf. rewrite H in Hbuf.
  unfold batch_idx, bind, get_buf in H. rewrite Hs, He, Hu in H.
  repeat split.
  - eapply sample_n_length; eassumption.
  - eapply sample_n_bounds; eassumption.
  - exact Hbuf.
Qed.

(** X8.  In ordered mode the batch of [next_batch] is the contiguous range
    [[batch_start, batch_start + batch_size)] for a start at least the
    first train index and strictly below the last one; it has
    [batch_size] indices and the buffer is unchanged. *)
Theorem batch_idx_ordered
        (fuel : nat) (w : World) (s e : Z) (index : list Z) (w' : World) :
  _is_unordered (buf w) = false ->
  py_get (_train_idx (buf w)) 0 = Some s ->
  py_get (_train_idx (buf w)) (-1) = Some e ->
  batch_idx fuel w = (Ok index, w') ->
  exists batch_start,
    s <= batch_start < e /\
    index = Py.range batch_start (batch_start + _batch_size (buf w)) /\
    length index = Z.to_nat (_batch_size (buf w)) /\
    buf w' = buf w.
Proof.
  intros Hu Hs He H.
  pose proof (batch_idx_buf fuel w) as Hbuf. rewrite H in Hbuf.
  unfold batch_idx, bind, get_buf in H. rewrite Hs, He, Hu in H.
  destruct (_sample_geometric _ _ _ _ w) as [[b0| |] w1] eqn:E;
    try discriminate H.
  apply sample_geometric_bounds in E. inversion H; subst.
  exists b0. repeat split; try lia; try assumption.
  rewrite range_length. f_equal. lia.
Qed.

(** X9.  [next_batch] changes nothing of the buffer (only the generator
    moves), and [_pack_samples], [get_training_set], [get_test_set] and
    [get_val_set] change nothing at all, whether they return or raise. *)
Theorem reads_leave_buffer (fuel : nat) (index : list Z) (w : World) :
  buf (snd (next_batch fuel w)) = buf w /\
  snd (_pack_samples index w) = w /\
  snd (get_training_set w) = w /\
  snd (get_test_set w) = w /\
  snd (get_val_set w) = w.
Proof.
  split; [|split; [|split; [|split]]].
  - apply next_batch_buf.
  - apply pack_samples_state.
  - unfold get_training_set, bind, get_buf. apply pack_samples_state.
  - unfold get_test_set, bind, get_buf. apply pack_samples_state.
  - unfold get_val_set, bind, get_buf. apply pack_samples_state.
Qed.

(** X10.  Whatever it is given and whether it returns or raises, [setw]
    leaves the features, the three index ranges, the generator and the
    shape of the memory (rows, columns, rows stored) as they were: only
    the contents of memory rows can change. *)
Theorem setw_keeps_shapes (index : list Z) (t : Tensor2) (w : World) :
  let w' := snd (setw index t w) in
  _coin_features (buf w') = _coin_features (buf w) /\
  _train_idx (buf w') = _train_idx (buf w) /\
  _test_idx (buf w') = _test_idx (buf w) /\
  _val_idx (buf w') = _val_idx (buf w) /\
  nrow (_pvm (buf w')) = nrow (_pvm (buf w)) /\
  ncol (_pvm (buf w')) = ncol (_pvm (buf w)) /\
  length (rows (_pvm (buf w'))) = length (rows (_pvm (buf w))) /\
  rng w' = rng w.
Proof.
  unfold setw, bind, get_buf, modify_buf, lift, raise. cbn [buf rng].
  destruct (_ && _); [|cbn; auto 10].
  destruct (scatter _ _ _ _) as [r rows'] eqn:Es.
  apply scatter_length in Es. destruct r; cbn; auto 10.
Qed.

End SamplingAndBatches.

Lemma Forall2_functional {A B : Type} (R1 R2 : A -> B -> Prop) :
  (forall a b1 b2, R1 a b1 -> R2 a b2 -> b1 = b2) ->
  forall l l1 l2, Forall2 R1 l l1 -> Forall2 R2 l l2 -> l1 = l2.
Proof.
  intros Hf l l1 l2 H1. revert l2.
  induction H1 as [|a b1 l l1 Hab _ IH]; intros l2 H2; inversion H2; subst.
  - reflexivity.
  - f_equal; eauto.
Qed.

(** Dropping the last step of a window that lies inside the series. *)
Lemma slice_to_window {A : Type} (l : list A) (a k : Z) :
  0 <= a -> 0 <= k -> a + k + 1 <= Z.of_nat (length l) ->
  Py.slice_to (Py.slice l a (a + k + 1)) (-1) = Py.slice l a (a + k).
Proof.
  intros Ha Hk Hl.
  change (Z.neg 1) with (Z.opp (Z.pos 1)). rewrite slice_to_neg by lia.
  rewrite remove_last_firstn. unfold Py.slice, Py.norm_bound.
  destruct (Z.ltb_spec a 0); [lia|].
  destruct (Z.ltb_spec (a + k + 1) 0); [lia|].
  destruct (Z.ltb_spec (a + k) 0); [lia|].
  rewrite length_firstn, length_skipn, firstn_firstn.
  f_equal. lia.
Qed.

Section PackingAndAppending.
Context {AB : ArrayBackend} {RS : RandomSource}.

(** X11.  The feedback loop of the memory: after [setw] has written the
    weights [t] at a set of indices (distinct rows), packing the indices
    that follow them ([idx + 1] for each) returns exactly the rows of [t]
    as prior weights. *)
Theorem setw_then_pack_feedback
        (w : World) (index : list Z) (t : Tensor2) (w2 : World) (p : Packed) :
  length (rows (_pvm (buf w))) = nrow (_pvm (buf w)) ->
  NoDup (map (Py.index (nrow (_pvm (buf w)))) index) ->
  wf2 t -> nrow t = length index -> ncol t = ncol (_pvm (buf w)) ->
  setw index t w = (Ok tt, w2) ->
  pack_from (buf w2) (map (fun i => i + 1) index) = Ok p ->
  last_w p = rows t.
Proof.
  intros Hrows Hnd [Htr Htc] Hn Hc Hset Hp.
  unfold setw, bind, get_buf, modify_buf, lift in Hset. cbn [buf rng] in Hset.
  rewrite Hn, Hc, !Nat.eqb_refl in Hset. cbn [orb andb] in Hset.
  assert (Hexp : expand (length index)
                        (map (expand (ncol (_pvm (buf w)))) (rows t))
                 = rows t).
  { rewrite expand_same.
    - rewrite <- (map_id (rows t)) at 2. apply map_ext_in.
      intros r Hr. apply expand_same. rewrite Forall_forall in Htc.
      rewrite (Htc r Hr). exact Hc.
    - rewrite length_map. lia. }
  rewrite Hexp in Hset.
  destruct (scatter _ _ _ _) as [r rows'] eqn:Es.
  destruct r as [[]| |]; inversion Hset; subst w2. clear Hset.
  destruct (pack_from_inv _ _ _ Hp) as (lw & _ & _ & Hg & _ & _ & _ & _ & Hlw & _).
  cbn [buf _pvm with_pvm rows nrow] in Hg.
  rewrite map_map in Hg.
  rewrite (map_ext (fun i => i + 1 - 1) (fun i => i)) in Hg by (intros; lia).
  rewrite map_id in Hg.
  apply gather_Forall2 in Hg.
  pose proof (scatter_written _ _ _ _ _ Hrows (eq_trans Htr Hn) Hnd Es) as Hw.
  rewrite Hlw.
  eapply Forall2_functional; [|exact Hg|exact Hw].
  intros i r1 r2 (q1 & Hq1 & Hr1) (q2 & Hq2 & Hr2). congruence.
Qed.

(** X12.  For windows that lie inside the series, the input [X] of a packed
    batch is, per sample, channel and coin, the series from [idx] up to
    [idx + window_size] excluded: the window without its last step, so
    every input series has [window_size] steps. *)
Theorem pack_input_windows (b : PGPBuffer) (index : list Z) (p : Packed) :
  wf3 (_coin_features b) ->
  0 <= _window_size b ->
  Forall (fun idx => 0 <= idx /\
                     idx + _window_size b + 1
                     <= Z.of_nat (ntime (_coin_features b))) index ->
  pack_from b index = Ok p ->
  X p = map (fun idx =>
               map (map (fun ser => Py.slice ser idx (idx + _window_size b)))
                   (chans (_coin_features b)))
            index /\
  Forall (Forall (Forall (fun ser => length ser
                                     = Z.to_nat (_window_size b)))) (X p).
Proof.
  intros [_ Hwf] Hws Hwin H.
  assert (HX : X p = map (fun idx =>
               map (map (fun ser => Py.slice ser idx (idx + _window_size b)))
                   (chans (_coin_features b))) index).
  { unfold pack_from in H.
    destruct (gather _ _ _) as [lw|]; [|discriminate].
    destruct (stack_len _) as [wl|]; [|discriminate].
    destruct ((wl <? 2)%nat || _); [discriminate|].
    destruct (price_relative _ _) as [y3|]; [|discriminate].
    inversion H; subst p. cbn [X]. clear H.
    rewrite map_map. apply map_ext_in. intros idx Hidx.
    rewrite Forall_forall in Hwin. specialize (Hwin idx Hidx).
    unfold window. rewrite map_map. apply map_ext_in. intros ch Hch.
    rewrite map_map. apply map_ext_in. intros ser Hser.
    rewrite Forall_forall in Hwf. destruct (Hwf ch Hch) as [_ Hsers].
    rewrite Forall_forall in Hsers. specialize (Hsers ser Hser).
    apply slice_to_window; lia. }
  split; [exact HX|]. rewrite HX.
  apply Forall_forall. intros smp Hsmp. apply in_map_iff in Hsmp.
  destruct Hsmp as (idx & <- & Hidx).
  rewrite Forall_forall in Hwin. specialize (Hwin idx Hidx).
  apply Forall_forall. intros ch Hch. apply in_map_iff in Hch.
  destruct Hch as (ch0 & <- & Hch0).
  apply Forall_forall. intros ser Hser. apply in_map_iff in Hser.
  destruct Hser as (ser0 & <- & Hser0).
  rewrite Forall_forall in Hwf. destruct (Hwf ch0 Hch0) as [_ Hsers].
  rewrite Forall_forall in Hsers. specialize (Hsers ser0 Hser0).
  unfold Py.slice, Py.norm_bound. rewrite Hsers.
  destruct (Z.ltb_spec idx 0); [lia|].
  destruct (Z.ltb_spec (idx + _window_size b) 0); [lia|].
  rewrite length_firstn, length_skipn. lia.
Qed.

(** X14.  A batch of two or more samples over two or more channels whose
    numbers differ cannot be packed: with every window inside the series
    (two steps or more) and one memory row per period, [_pack_samples]
    raises [RuntimeError] at the division that computes the target. *)
Theorem pack_raises_when_not_broadcastable (b : PGPBuffer) (index : list Z) :
  let T := Z.of_nat (ntime (_coin_features b)) in
  Forall (fun idx => 0 <= idx /\ idx + _window_size b + 1 <= T) index ->
  1 <= _window_size b ->
  pvm_tracks_features b ->
  nfeat (_coin_features b) <> length index ->
  (2 <= nfeat (_coin_features b))%nat -> (2 <= length index)%nat ->
  pack_from b index = Raise RuntimeError.
Proof.
  intros T Hwin Hws [Hn Hr] Hne Hf HB. unfold pack_from.
  rewrite Forall_forall in Hwin.
  destruct (gather_ok (rows (_pvm b)) (nrow (_pvm b))) with
    (idxs := map (fun i => i - 1) index) as [lw ->].
  { now rewrite Hr, Hn. }
  { apply Forall_forall. intros j Hj. apply in_map_iff in Hj.
    destruct Hj as (idx & <- & Hidx). specialize (Hwin idx Hidx).
    rewrite Hn. fold T. lia. }
  rewrite (stack_len_const _ (Z.to_nat (_window_size b + 1))).
  - destruct (Nat.ltb_spec (Z.to_nat (_window_size b + 1)) 2); [lia|].
    destruct (Nat.eqb_spec (nfeat (_coin_features b)) 0); [lia|].
    cbn [orb]. unfold price_relative, broadcast_dim. rewrite length_map.
    destruct (Nat.eqb_spec (nfeat (_coin_features b)) (length index));
      [contradiction|].
    destruct (Nat.eqb_spec (nfeat (_coin_features b)) 1); [lia|].
    destruct (Nat.eqb_spec (length index) 1); [lia|]. reflexivity.
  - destruct index; [cbn in HB; lia | discriminate].
  - intros idx Hidx. specialize (Hwin idx Hidx).
    replace (idx + _window_size b + 1) with (idx + (_window_size b + 1)) by lia.
    apply slice_len_inside; fold T; lia.
Qed.

(** X18.  Called without new weights ([pvm] left at [None]),
    [append_experience] raises on every buffer and for every feature
    array: at the latest [pvm.to(device)] fails. *)
Theorem append_experience_without_pvm_raises (f : Tensor3) (w : World) :
  exists e, fst (append_experience f None w) = Raise e.
Proof.
  unfold append_experience, bind, get_buf, modify_buf, lift, raise.
  cbn [buf rng].
  destruct (_portion_reversed (buf w)); cbn [negb]; [|cbn; eauto].
  destruct w as [b g]. cbn [buf rng] in *. cbn [with_new_exp_count _train_idx].
  destruct (py_get (_train_idx b) (-1)) as [last|]; [|cbn; eauto].
  destruct (np_iadd _ _) as [idx| |] eqn:Ei; cbn; eauto;
    [|now apply np_iadd_answers in Ei].
  unfold cat3. cbn.
  destruct (_ && _); cbn; eauto.
Qed.

(** X19.  On a reversed buffer [append_experience] adds the number of new
    periods to the counter of appended experience before anything else,
    so the counter has moved even when the call then raises. *)
Theorem append_experience_counts_before_raising
        (f : Tensor3) (p : option Tensor2) (w : World) :
  _portion_reversed (buf w) = true ->
  _new_exp_count (buf (snd (append_experience f p w)))
  = _new_exp_count (buf w) + Z.of_nat (ntime f).
Proof.
  intros Hrev.
  unfold append_experience, bind, get_buf, modify_buf, lift, raise.
  cbn [buf rng]. rewrite Hrev. cbn [negb].
  destruct w as [b g]. cbn [buf rng] in *. cbn [with_new_exp_count _train_idx].
  destruct (py_get (_train_idx b) (-1)) as [last|]; [|reflexivity].
  destruct (np_iadd _ _) as [idx| |]; try reflexivity. cbn.
  destruct (cat3 _ _) as [f'| |]; try reflexivity. cbn.
  destruct p as [p|]; try reflexivity. cbn.
  destruct (cat2 _ _) as [p'| |]; reflexivity.
Qed.

End PackingAndAppending.

Lemma remove_last_range_In (k : nat) (a b idx : Z) :
  In idx (remove_last k (Py.range a b)) -> a <= idx < b - Z.of_nat k.
Proof.
  rewrite remove_last_firstn, range_length.
  change (Py.range a b) with (skipn 0 (Py.range a b)).
  rewrite firstn_skipn_range. intros H. apply range_In in H. lia.
Qed.

(** Every index a range keeps has its window, and one step more, before the
    end of the part the range was cut from. *)
Lemma divide_parts_windows (N w : Z) (t v : Q) (rev : bool)
      (tr te va : list Z) :
  0 <= N -> 0 <= w -> (0 <= t)%Q -> (0 <= v)%Q -> (t + v <= 1)%Q ->
  _divide_data N w t v rev = Ok (tr, te, va) ->
  forall idx, In idx tr \/ In idx te \/ In idx va ->
              0 <= idx /\ idx + w + 1 < N.
Proof.
  intros HN Hw Ht Hv Htv H idx Hin.
  rewrite divide_truncates in H by assumption.
  destruct (split_parts_valid N t v HN Ht Hv Htv) as (H1 & H2 & Hf & Hr).
  destruct rev; [rewrite Hr in H | rewrite Hf in H]; inversion H; subst;
    destruct Hin as [Hin | [Hin | Hin]]; apply remove_last_range_In in Hin; lia.
Qed.

(** X20.  For valid inputs (series length and window size not negative,
    portions not negative with sum at most one) every index [_divide_data]
    keeps, in any of the three ranges, is not negative and has its window
    of [window_size + 1] steps strictly before the end of the series. *)
Theorem divide_windows_inside (N w : Z) (t v : Q) (rev : bool)
        (train_idx test_idx val_idx : list Z) :
  0 <= N -> 0 <= w -> (0 <= t)%Q -> (0 <= v)%Q -> (t + v <= 1)%Q ->
  _divide_data N w t v rev = Ok (train_idx, test_idx, val_idx) ->
  Forall (fun idx => 0 <= idx /\ idx + w + 1 < N)
         (train_idx ++ test_idx ++ val_idx).
Proof.
  intros HN Hw Ht Hv Htv H. apply Forall_forall. intros idx Hin.
  apply (divide_parts_windows N w t v rev train_idx test_idx val_idx
           HN Hw Ht Hv Htv H).
  rewrite !in_app_iff in Hin. exact Hin.
Qed.

Section BuiltBuffers.
Context {AB : ArrayBackend} {RS : RandomSource}.

Lemma init_fields (f : Tensor3) (bs ws : Z) (t v bias : Q) (rev unord : bool)
      (b : PGPBuffer) :
  __init__ f bs ws t v bias rev unord = Ok b ->
  _coin_features b = f /\ _window_size b = ws /\
  _divide_data (Z.of_nat (ntime f)) ws t v rev
  = Ok (_train_idx b, _test_idx b, _val_idx b).
Proof.
  unfold __init__. destruct (ncoin f =? 0)%nat; [discriminate|].
  destruct (_divide_data _ _ _ _ _) as [[[tr te] va]| |]; try discriminate.
  intros H. inversion H; subst b. auto.
Qed.

(** A range of a built buffer packs when it is not empty and its length
    broadcasts against the number of channels. *)
Lemma built_range_packs (f : Tensor3) (bs ws : Z) (t v bias : Q)
      (rev unord : bool) (b : PGPBuffer) (g : Rng) (index : list Z) :
  (0 <= t)%Q -> (0 <= v)%Q -> (t + v <= 1)%Q -> 1 <= ws ->
  nfeat f <> 0%nat ->
  __init__ f bs ws t v bias rev unord = Ok b ->
  index = _train_idx b \/ index = _test_idx b \/ index = _val_idx b ->
  index <> [] ->
  broadcast_dim (nfeat f) (length index) <> None ->
  exists p, _pack_samples index (mkWorld b g) = (Ok p, mkWorld b g) /\
            setw_index p = index.
Proof.
  intros Ht Hv Htv Hws Hnf Hb Hsel Hne Hbc.
  destruct (init_fields _ _ _ _ _ _ _ _ _ Hb) as (Hf & Hw & Hd).
  assert (Hinv : buffer_inv b)
    by (refine (init_inv f bs ws t v bias rev unord b _ Hb); lia).
  destruct Hinv as [Hinv _].
  unfold _pack_samples, bind, get_buf, lift. cbn [buf].
  destruct (pack_from_returns b index) as (p & Hp & Hsi);
    rewrite ?Hf, ?Hw; try assumption.
  - apply Forall_forall. intros idx Hin.
    assert (Hin' : In idx (_train_idx b) \/ In idx (_test_idx b)
                   \/ In idx (_val_idx b)).
    { destruct Hsel as [-> | [-> | ->]]; auto. }
    assert (Hws0 : 0 <= ws) by lia.
    pose proof (divide_parts_windows (Z.of_nat (ntime f)) ws t v rev _ _ _
                  (Nat2Z.is_nonneg (ntime f)) Hws0 Ht Hv Htv Hd idx Hin').
    lia.
  - rewrite Hp. eauto.
Qed.

(** X21.  On a buffer built with valid portions and a window size of one
    or more over at least one channel, [get_training_set], [get_test_set]
    and [get_val_set] each return a batch over their whole range, and
    change nothing, whenever that range is not empty and its length
    broadcasts against the number of channels (equal to it, or one of the
    two is one). *)
Theorem get_sets_return_on_built_buffer
        (f : Tensor3) (bs ws : Z) (t v bias : Q) (rev unord : bool)
        (b : PGPBuffer) (g : Rng) :
  (0 <= t)%Q -> (0 <= v)%Q -> (t + v <= 1)%Q -> 1 <= ws ->
  nfeat f <> 0%nat ->
  __init__ f bs ws t v bias rev unord = Ok b ->
  (_train_idx b <> [] ->
   broadcast_dim (nfeat f) (train_num b) <> None ->
   exists p, get_training_set (mkWorld b g) = (Ok p, mkWorld b g) /\
             setw_index p = _train_idx b) /\
  (_test_idx b <> [] ->
   broadcast_dim (nfeat f) (test_num b) <> None ->
   exists p, get_test_set (mkWorld b g) = (Ok p, mkWorld b g) /\
             setw_index p = _test_idx b) /\
  (_val_idx b <> [] ->
   broadcast_dim (nfeat f) (val_num b) <> None ->
   exists p, get_val_set (mkWorld b g) = (Ok p, mkWorld b g) /\
             setw_index p = _val_idx b).
Proof.
  intros Ht Hv Htv Hws Hnf Hb.
  split; [|split]; intros Hne Hbc;
    unfold get_training_set, get_test_set, get_val_set, bind, get_buf;
    cbn [buf].
  - apply (built_range_packs f bs ws t v bias rev unord b g (_train_idx b));
      auto.
  - apply (built_range_packs f bs ws t v bias rev unord b g (_test_idx b));
      auto.
  - apply (built_range_packs f bs ws t v bias rev unord b g (_val_idx b));
      auto.
Qed.

End BuiltBuffers.

Lemma sample_geometric_first_accepted_witness :
  _sample_geometric 3 2 5 (1 # 10) (mkWorld idle_buffer (replay [7; 2]%positive))
  = (Ok (5 - Z.pos (fst (nth_draw (1 # 10) (replay [7; 2]%positive) 1))),
     mkWorld idle_buffer (snd (nth_draw (1 # 10) (replay [7; 2]%positive) 1))).
Proof.
  apply (sample_geometric_first_accepted 3 2 5 (1 # 10)
           (mkWorld idle_buffer (replay [7; 2]%positive)) 1).
  - reflexivity.
  - unfold Qle; cbn; lia.
  - lia.
  - intros i Hi. assert (i = 0%nat) as -> by lia. cbn. lia.
  - cbn. lia.
Defined.

Lemma sample_geometric_rejects_forever_witness :
  fst (_sample_geometric 5 2 2 (1 # 10)
         (mkWorld idle_buffer (replay [1; 1]%positive))) = OutOfFuel.
Proof.
  apply (sample_geometric_rejects_forever 5 2 2 (1 # 10)
           (mkWorld idle_buffer (replay [1; 1]%positive))).
  - reflexivity.
  - unfold Qle; cbn; lia.
  - lia.
Defined.

Lemma next_batch_never_returns_on_short_range_witness :
  fst (next_batch 5 (mkWorld online_buffer (replay []))) = OutOfFuel.
Proof.
  apply (next_batch_never_returns_on_short_range 5
           (mkWorld online_buffer (replay [])) 2 2).
  - reflexivity.
  - reflexivity.
  - lia.
  - reflexivity.
  - unfold Qle; cbn; lia.
  - left. reflexivity.
Defined.

Lemma next_batch_empty_train_witness :
  next_batch 5 world_2x2x4 = (Raise IndexError, world_2x2x4).
Proof. apply (next_batch_empty_train 5 world_2x2x4). reflexivity. Defined.

Lemma batch_idx_unordered_witness :
  length [2; 0; 1] = Z.to_nat (_batch_size (buf unordered_world)) /\
  Forall (fun i => 0 <= i < 3) [2; 0; 1] /\
  buf (mkWorld unordered_buffer (replay [])) = buf unordered_world.
Proof.
  apply (batch_idx_unordered 3 unordered_world 0 3 [2; 0; 1]
           (mkWorld unordered_buffer (replay []))); reflexivity.
Defined.

Lemma batch_idx_ordered_witness :
  exists batch_start,
    0 <= batch_start < 3 /\
    [2; 3; 4]
    = Py.range batch_start (batch_start + _batch_size (buf ordered_world)) /\
    length [2; 3; 4] = Z.to_nat (_batch_size (buf ordered_world)) /\
    buf (mkWorld ordered_buffer (replay [])) = buf ordered_world.
Proof.
  apply (batch_idx_ordered 3 ordered_world 0 3 [2; 3; 4]
           (mkWorld ordered_buffer (replay []))); reflexivity.
Defined.

Lemma setw_then_pack_feedback_witness :
  last_w packed_after_feedback = rows weights_2x2.
Proof.
  apply (setw_then_pack_feedback world_2x2x4 [0; 1] weights_2x2
           fed_back_world packed_after_feedback).
  - reflexivity.
  - cbn. repeat constructor.
    + intros [H|[]]. discriminate H.
    + intros [].
  - split; [reflexivity | repeat constructor].
  - reflexivity.
  - reflexivity.
  - reflexivity.
  - reflexivity.
Defined.

Lemma wf3_feats_2x2x4 : wf3 feats_2x2x4.
Proof. split; [reflexivity | repeat constructor]. Qed.

Lemma pack_input_windows_witness :
  X packed_1_2
  = map (fun idx =>
           map (map (fun ser => Py.slice ser idx (idx + _window_size buffer_2x2x4)))
               (chans (_coin_features buffer_2x2x4)))
        [1; 2] /\
  Forall (Forall (Forall (fun ser => length ser
                                     = Z.to_nat (_window_size buffer_2x2x4))))
         (X packed_1_2).
Proof.
  apply (pack_input_windows buffer_2x2x4 [1; 2] packed_1_2).
  - exact wf3_feats_2x2x4.
  - cbn. lia.
  - repeat constructor; cbn; lia.
  - reflexivity.
Defined.

Lemma pack_single_target_witness :
  y (built_packed (pack_from buffer_1x2x2 [0])) = claimed_target buffer_1x2x2 [0].
Proof.
  apply (pack_single_target buffer_1x2x2 0
           (built_packed (pack_from buffer_1x2x2 [0]))); reflexivity.
Defined.

Lemma pack_raises_when_not_broadcastable_witness :
  pack_from ordered_buffer [1; 2] = Raise RuntimeError.
Proof.
  apply (pack_raises_when_not_broadcastable ordered_buffer [1; 2]).
  - repeat constructor; cbn; lia.
  - cbn. lia.
  - split; reflexivity.
  - cbn. lia.
  - cbn. lia.
  - cbn. lia.
Defined.

Lemma append_experience_not_reversed_witness :
  append_experience feats_1x1x1 (Some pvm_1x1) world_2x2x4
  = (Raise RuntimeError, world_2x2x4).
Proof.
  apply (append_experience_not_reversed feats_1x1x1 (Some pvm_1x1) world_2x2x4).
  reflexivity.
Defined.

Lemma append_experience_never_returns_witness :
  exists e,
    fst (append_experience feats_1x1x4 (Some pvm_1x1)
           (run_calls calls_example (mkWorld online_buffer (replay []))))
    = Raise e.
Proof.
  apply (append_experience_never_returns feats_1x1x4 1 0 (1 # 4) (1 # 4)
           (1 # 10) true false online_buffer (replay []) calls_example
           feats_1x1x4 (Some pvm_1x1)).
  - lia.
  - reflexivity.
Defined.

Lemma append_experience_counts_before_raising_witness :
  _new_exp_count
    (buf (snd (append_experience feats_1x1x1 (Some pvm_1x1)
                 (mkWorld online_buffer (replay [])))))
  = _new_exp_count (buf (mkWorld online_buffer (replay [])))
    + Z.of_nat (ntime feats_1x1x1).
Proof.
  apply (append_experience_counts_before_raising feats_1x1x1 (Some pvm_1x1)
           (mkWorld online_buffer (replay []))).
  reflexivity.
Defined.

Lemma divide_windows_inside_witness :
  Forall (fun idx => 0 <= idx /\ idx + 50 + 1 < 1000)
         (Py.range 0 699 ++ Py.range 750 849 ++ Py.range 900 949).
Proof.
  apply (divide_windows_inside 1000 50 (15 # 100) (1 # 10) false
           (Py.range 0 699) (Py.range 750 849) (Py.range 900 949)).
  - lia.
  - lia.
  - unfold Qle; cbn; lia.
  - unfold Qle; cbn; lia.
  - unfold Qle; cbn; lia.
  - vm_compute. reflexivity.
Defined.

Lemma get_sets_return_on_built_buffer_witness :
  (_train_idx head_buffer <> [] ->
   broadcast_dim (nfeat feats_1x2x8) (train_num head_buffer) <> None ->
   exists p,
     get_training_set (mkWorld head_buffer (replay []))
     = (Ok p, mkWorld head_buffer (replay [])) /\
     setw_index p = _train_idx head_buffer) /\
  (_test_idx head_buffer <> [] ->
   broadcast_dim (nfeat feats_1x2x8) (test_num head_buffer) <> None ->
   exists p,
     get_test_set (mkWorld head_buffer (replay []))
     = (Ok p, mkWorld head_buffer (replay [])) /\
     setw_index p = _test_idx head_buffer) /\
  (_val_idx head_buffer <> [] ->
   broadcast_dim (nfeat feats_1x2x8) (val_num head_buffer) <> None ->
   exists p,
     get_val_set (mkWorld head_buffer (replay []))
     = (Ok p, mkWorld head_buffer (replay [])) /\
     setw_index p = _val_idx head_buffer).
Proof.
  apply (get_sets_return_on_built_buffer feats_1x2x8 1 1 (1 # 4) (1 # 4)
           (1 # 10) false false head_buffer (replay [])).
  - unfold Qle; cbn; lia.
  - unfold Qle; cbn; lia.
  - unfold Qle; cbn; lia.
  - lia.
  - cbn. lia.
  - reflexivity.
Defined.

